(** * A library circulation tool: the persistence gateway, the session
      controller and its observers (src/main.py), embedded and verified.

    The relational store is a pair of tables held as lists of rows, a
    position of a list standing for a row of its table; the cursor's
    [rowcount], the console, the log file and the wall clock are the rest
    of the environment.  Every method of the source is a
    computation in a state-and-exception monad over that environment. *)

From Stdlib Require Import ZArith String List Lia Bool.
From Stdlib Require Import DecimalString.
From stdpp Require Import base list strings pretty.

Local Open Scope string_scope.
Local Open Scope Z_scope.

(* ===================================================================== *)
(** ** Exceptions and the monad                                           *)
(* ===================================================================== *)

(** The exception classes the program meets.  [ValueError] stands for the
    class and its subclasses (an [except ValueError] clause catches them
    all, [UnicodeEncodeError] included); [OtherException] is any class that
    is not a [ValueError]. *)
Inductive exn : Type :=
  | ValueError (msg : string)
  | NotImplementedError (msg : string)
  | EOFError
  | SystemExit
  | OtherException (cls msg : string).

(** The outcome of a call: a value, a raised exception, or no outcome
    within the fuel given to a loop. *)
Inductive result (A : Type) : Type :=
  | Ok (a : A)
  | Raise (e : exn)
  | Diverge.
Arguments Ok {A} a.
Arguments Raise {A} e.
Arguments Diverge {A}.

Definition M (S A : Type) : Type := S -> S * result A.

Definition ret {S A} (a : A) : M S A := fun s => (s, Ok a).

Definition bind {S A B} (c : M S A) (k : A -> M S B) : M S B :=
  fun s =>
    match c s with
    | (s', Ok a) => k a s'
    | (s', Raise e) => (s', Raise e)
    | (s', Diverge) => (s', Diverge)
    end.

Definition raise {S A} (e : exn) : M S A := fun s => (s, Raise e).

Definition get {S} : M S S := fun s => (s, Ok s).

Definition modify {S} (f : S -> S) : M S unit := fun s => (f s, Ok tt).

(** [try: body except ValueError as e: handler e]; [str(e)] is the
    message. *)
Definition try_except_ValueError {S} (body : M S unit)
    (handler : string -> M S unit) : M S unit :=
  fun s =>
    match body s with
    | (s', Raise (ValueError msg)) => handler msg s'
    | r => r
    end.

Declare Scope monad_scope.
Delimit Scope monad_scope with monad.
Notation "x <- c1 ;; c2" := (bind c1 (fun x => c2))
  (at level 100, c1 at next level, right associativity) : monad_scope.
Notation "c1 ;; c2" := (bind c1 (fun _ => c2))
  (at level 100, right associativity) : monad_scope.
Local Open Scope monad_scope.

(* ===================================================================== *)
(** ** The store schema                                                   *)
(* ===================================================================== *)

(** Dates are kept as the store prints them (ISO text). *)
Definition date : Type := string.

Record datetime : Type := mkDatetime { dt_date : date; dt_time : string }.

(** [str(datetime)] *)
Definition str_datetime (d : datetime) : string :=
  dt_date d ++ " " ++ dt_time d.

(** Modelled from the spec: the schema of table [lib], which is created
    outside the program.  [lib(id, title, author, release_date,
    borrowed_by, borrow_date, return_date)]: an integer key, three texts
    that are never null, and the nullable borrow triple; SQL NULL is
    [None].  The [return_date] column keeps the text it is given. *)
Module Lib.
Record row : Type := mkRow {
  id : Z;
  title : string;
  author : string;
  release_date : date;
  borrowed_by : option string;
  borrow_date : option date;
  return_date : option string
}.
End Lib.

(** Modelled from the spec: the schema of table [roles], which is created
    outside the program.  [roles(username, password, role)]: three texts,
    none of them null, compared by [=] as they are. *)
Module Roles.
Record row : Type := mkRow {
  username : string;
  password : string;
  role : string
}.
End Roles.

(* ===================================================================== *)
(** ** The environment                                                    *)
(* ===================================================================== *)

(** What is written to the terminal: a [print] call or the prompt of an
    [input]/[getpass] call. *)
Inductive output : Type :=
  | Print (s : string)
  | Prompt (s : string).

Record Env : Type := mkEnv {
  lib : list Lib.row;            (* table lib, in store order *)
  roles : list Roles.row;        (* table roles, in store order *)
  rowcount : Z;                  (* cursor.rowcount *)
  stdin : list string;           (* the lines still to be typed *)
  stdout : list output;          (* what was written, oldest first *)
  log_file : list string;        (* lines of library_log.txt *)
  log_fault : string -> option exn;
                                 (* what writing a given line to the log
                                    raises, if anything *)
  clock : nat -> datetime;       (* the n-th reading of the wall clock *)
  ticks : nat                    (* readings taken so far *)
}.

Definition with_lib (l : list Lib.row) (e : Env) : Env :=
  mkEnv l (roles e) (rowcount e) (stdin e) (stdout e) (log_file e)
        (log_fault e) (clock e) (ticks e).

Definition with_rowcount (n : Z) (e : Env) : Env :=
  mkEnv (lib e) (roles e) n (stdin e) (stdout e) (log_file e)
        (log_fault e) (clock e) (ticks e).

Definition with_stdin (i : list string) (e : Env) : Env :=
  mkEnv (lib e) (roles e) (rowcount e) i (stdout e) (log_file e)
        (log_fault e) (clock e) (ticks e).

Definition with_stdout (o : list output) (e : Env) : Env :=
  mkEnv (lib e) (roles e) (rowcount e) (stdin e) o (log_file e)
        (log_fault e) (clock e) (ticks e).

Definition with_log_file (l : list string) (e : Env) : Env :=
  mkEnv (lib e) (roles e) (rowcount e) (stdin e) (stdout e) l
        (log_fault e) (clock e) (ticks e).

Definition with_ticks (n : nat) (e : Env) : Env :=
  mkEnv (lib e) (roles e) (rowcount e) (stdin e) (stdout e) (log_file e)
        (log_fault e) (clock e) n.

(** [datetime.now()] *)
Definition now : M Env datetime :=
  fun e => (with_ticks (S (ticks e)) e, Ok (clock e (ticks e))).

(** [print(s)] *)
Definition print (s : string) : M Env unit :=
  modify (fun e => with_stdout (stdout e ++ [Print s]) e).

(** [input(prompt)]: the prompt is written, a line is read; end of input
    raises [EOFError]. *)
Definition input (prompt : string) : M Env string :=
  fun e =>
    let e' := with_stdout (stdout e ++ [Prompt prompt]) e in
    match stdin e' with
    | [] => (e', Raise EOFError)
    | line :: rest => (with_stdin rest e', Ok line)
    end.

(** [getpass(prompt)]: as [input], without echo. *)
Definition getpass (prompt : string) : M Env string := input prompt.

(* ===================================================================== *)
(** ** class Database                                                     *)
(* ===================================================================== *)

Definition is_null {A} (o : option A) : bool :=
  match o with None => true | Some _ => false end.

(** The text holds a NUL character. *)
Fixpoint has_nul (s : string) : bool :=
  match s with
  | EmptyString => false
  | String c s' => Ascii.eqb c Ascii.zero || has_nul s'
  end.

(** A statement's parameter, a text or [None] (SQL NULL), holds one. *)
Definition param_has_nul (p : option string) : bool :=
  match p with
  | Some s => has_nul s
  | None => false
  end.

Module Database.

Definition MSG_NUL : string :=
  "A string literal cannot contain NUL (0x00) characters.".

(** [cursor.execute(statement, params)] first turns its parameters into
    SQL literals, and raises a [ValueError] of its own for a text that
    holds a NUL character: nothing has been sent to the store by then. *)
Definition adapt (params : list (option string)) : M Env unit :=
  if existsb param_has_nul params
  then raise (ValueError MSG_NUL)
  else ret tt.

(** [UPDATE lib SET ... WHERE cond]: every row that satisfies [cond] is
    rewritten, and their number is the statement's row count.  A position
    of the list stands for a row of the table, the same row before and
    after the statement; it is not the place at which a later [SELECT]
    without [ORDER BY] returns that row, which the store is free to
    change. *)
Definition update_rows (cond : Lib.row -> bool) (set : Lib.row -> Lib.row)
    (rows : list Lib.row) : list Lib.row :=
  map (fun b => if cond b then set b else b) rows.

Definition count_rows {A} (cond : A -> bool) (rows : list A) : Z :=
  Z.of_nat (length (List.filter cond rows)).

Definition execute_update (cond : Lib.row -> bool)
    (set : Lib.row -> Lib.row) : M Env unit :=
  modify (fun e =>
    with_rowcount (count_rows cond (lib e))
      (with_lib (update_rows cond set (lib e)) e)).

(** [connection.commit()]: each call of the gateway is one statement and
    one transaction, so the commit changes nothing that is modelled. *)
Definition commit : M Env unit := ret tt.

(** [SELECT ... FROM lib]: all the rows, in store order. *)
Definition fetch_books : M Env (list Lib.row) :=
  e <- get ;;
  modify (with_rowcount (Z.of_nat (length (lib e)))) ;;
  ret (lib e).

Definition borrow_cond (book_id : Z) (b : Lib.row) : bool :=
  (Lib.id b =? book_id) && is_null (Lib.borrowed_by b).

Definition borrow_set (username : option string) (today : date)
    (return_date : string) (b : Lib.row) : Lib.row :=
  Lib.mkRow (Lib.id b) (Lib.title b) (Lib.author b) (Lib.release_date b)
            username (Some today) (Some return_date).

Definition MSG_UNAVAILABLE : string :=
  "Книга уже занята или не существует.".

(** The caller's [username] is whatever [LibraryApp.username] holds, a
    string or [None]; a [None] parameter is SQL NULL. *)
Definition borrow_book (book_id : Z) (username : option string)
    (return_date : string) : M Env unit :=
  t <- now ;;
  adapt [username; Some return_date] ;;
  execute_update (borrow_cond book_id)
                 (borrow_set username (dt_date t) return_date) ;;
  commit ;;
  e <- get ;;
  if rowcount e =? 0 then raise (ValueError MSG_UNAVAILABLE) else ret tt.

Definition return_cond (book_id : Z) (b : Lib.row) : bool :=
  Lib.id b =? book_id.

Definition return_set (b : Lib.row) : Lib.row :=
  Lib.mkRow (Lib.id b) (Lib.title b) (Lib.author b) (Lib.release_date b)
            None None None.

Definition return_book (book_id : Z) : M Env unit :=
  execute_update (return_cond book_id) return_set ;;
  commit.

Definition auth_cond (username password : string) (r : Roles.row) : bool :=
  String.eqb (Roles.username r) username
  && String.eqb (Roles.password r) password.

(** [SELECT role FROM roles WHERE username = %s AND password = %s], then
    [fetchone()]: the first selected row, if any. *)
Definition authenticate_user (username password : string)
    : M Env (option string) :=
  adapt [Some username; Some password] ;;
  e <- get ;;
  let selected := List.filter (auth_cond username password) (roles e) in
  modify (with_rowcount (Z.of_nat (length selected))) ;;
  match selected with
  | r :: _ => ret (Some (Roles.role r))
  | [] => ret None
  end.

End Database.

(* ===================================================================== *)
(** ** class Observer and class Logger                                    *)
(* ===================================================================== *)

(** A subscriber is anything with an [update(message)] method; the method
    runs against the environment and may raise. *)
Record Observer : Type := mkObserver { update : string -> M Env unit }.

Definition MSG_NOT_IMPLEMENTED : string :=
  "Метод 'update' должен быть реализован".

(** [Observer()], the base class itself. *)
Definition BaseObserver : Observer :=
  mkObserver (fun _ => raise (NotImplementedError MSG_NOT_IMPLEMENTED)).

(** [Logger()]: the log is opened for appending, the line
    [<timestamp>: <message>] is formatted and written.  The write raises
    what [log_fault] says for that line, if anything: an [OSError] of the
    file system, or the [UnicodeEncodeError] of an encoding that cannot
    take the text. *)
Definition Logger : Observer :=
  mkObserver (fun message =>
    t <- now ;;
    let line := str_datetime t ++ ": " ++ message in
    e <- get ;;
    match log_fault e line with
    | Some ex => raise ex
    | None => modify (with_log_file (log_file e ++ [line]))
    end).

(* ===================================================================== *)
(** ** class LibraryApp                                                   *)
(* ===================================================================== *)

(** [str(x)] of an optional text: [None] prints as the word. *)
Definition str_opt (o : option string) : string :=
  match o with Some s => s | None => "None" end.

(** Truth value of an optional text: [None] and the empty text are false. *)
Definition truthy (o : option string) : bool :=
  match o with
  | None => false
  | Some s => negb (String.eqb s "")
  end.

(** [x in (a, b, ...)] for an optional text and a tuple of texts. *)
Definition opt_in (o : option string) (l : list string) : bool :=
  match o with
  | None => false
  | Some s => existsb (String.eqb s) l
  end.

(** [x == "text"] for an optional text. *)
Definition opt_eqb (o : option string) (s : string) : bool :=
  match o with
  | None => false
  | Some s' => String.eqb s' s
  end.

Definition NL : string := String (Ascii.ascii_of_nat 10) EmptyString.

Module LibraryApp.

Record t : Type := mk {
  role : option string;
  username : option string;
  observers : list Observer
}.

(** The state of a session: the application object and its world. *)
Definition State : Type := (t * Env)%type.

Definition lift {A} (c : M Env A) : M State A :=
  fun s =>
    match c (snd s) with
    | (e', r) => ((fst s, e'), r)
    end.

Definition self : M State t := fun s => (s, Ok (fst s)).

Definition set_username (u : string) : M State unit :=
  modify (fun s : State =>
    (mk (role (fst s)) (Some u) (observers (fst s)), snd s)).

Definition set_role (r : option string) : M State unit :=
  modify (fun s : State =>
    (mk r (username (fst s)) (observers (fst s)), snd s)).

(** [LibraryApp(db)] *)
Definition __init__ : t := mk None None [].

Definition register_observer (observer : Observer) (app : t) : t :=
  mk (role app) (username app) (observers app ++ [observer]).

Fixpoint notify_each (obs : list Observer) (message : string)
    : M Env unit :=
  match obs with
  | [] => ret tt
  | observer :: rest =>
      update observer message ;; notify_each rest message
  end.

Definition notify_observers (message : string) : M State unit :=
  app <- self ;;
  lift (notify_each (observers app) message).

Definition MSG_WELCOME (u : option string) (r : option string) : string :=
  "Добро пожаловать, " ++ str_opt u ++ "! Ваша роль: " ++ str_opt r.
Definition MSG_BAD_LOGIN : string := "Неверный логин или пароль.".
Definition PROMPT_LOGIN : string := "Введите логин: ".
Definition PROMPT_PASSWORD : string := "Введите пароль: ".

Definition login : M State unit :=
  u <- lift (input PROMPT_LOGIN) ;;
  set_username u ;;
  password <- lift (getpass PROMPT_PASSWORD) ;;
  r <- lift (Database.authenticate_user u password) ;;
  set_role r ;;
  if truthy r
  then lift (print (MSG_WELCOME (Some u) r))
  else (lift (print MSG_BAD_LOGIN) ;; raise SystemExit).

Definition MSG_BOOK_LIST : string := NL ++ "Список книг:".

Definition book_status (book : Lib.row) : string :=
  if truthy (Lib.borrowed_by book)
  then "Выдана " ++ str_opt (Lib.borrowed_by book)
       ++ " до " ++ str_opt (Lib.return_date book)
  else "Доступна".

Definition book_line (book : Lib.row) : string :=
  "ID: " ++ pretty (Lib.id book) ++ ", Название: " ++ Lib.title book
  ++ ", Автор: " ++ Lib.author book ++ ", Статус: " ++ book_status book.

Fixpoint print_each (lines : list string) : M Env unit :=
  match lines with
  | [] => ret tt
  | l :: rest => print l ;; print_each rest
  end.

Definition show_books : M State unit :=
  books <- lift Database.fetch_books ;;
  lift (print MSG_BOOK_LIST) ;;
  lift (print_each (map book_line books)).

Definition MSG_NO_BORROW_ACCESS : string :=
  "У вас нет доступа к выдаче книг.".
Definition PROMPT_BORROW_ID : string :=
  "Введите ID книги, которую хотите взять: ".
Definition PROMPT_RETURN_DATE : string :=
  "Введите дату возврата (YYYY-MM-DD): ".
Definition MSG_BORROWED : string := "Книга успешно выдана!".
Definition NOTE_BORROWED (book_id : Z) (u : option string) : string :=
  "Книга ID " ++ pretty book_id ++ " выдана пользователю "
  ++ str_opt u ++ ".".

Definition MSG_NO_RETURN_ACCESS : string :=
  "У вас нет доступа к возврату книг.".
Definition PROMPT_RETURN_ID : string :=
  "Введите ID книги, которую хотите вернуть: ".
Definition MSG_RETURNED : string := "Книга успешно возвращена!".
Definition NOTE_RETURNED (book_id : Z) : string :=
  "Книга ID " ++ pretty book_id ++ " возвращена в библиотеку.".

Definition MENU_SHOW : string := NL ++ "1. Показать список книг".
Definition MENU_BORROW : string := "2. Взять книгу".
Definition MENU_RETURN : string := "3. Вернуть книгу".
Definition MENU_EXIT : string := "0. Выйти".
Definition PROMPT_CHOICE : string := "Выберите действие: ".
Definition MSG_BAD_CHOICE : string :=
  "Некорректный выбор. Попробуйте снова.".

Section WithInt.

(** The built-in [int] on a line of input: the integer, or the message
    of the [ValueError] it raises. *)
Variable py_int : string -> Z + string.

Definition int (s : string) : M State Z :=
  match py_int s with
  | inl z => ret z
  | inr msg => raise (ValueError msg)
  end.

Definition borrow_book : M State unit :=
  app <- self ;;
  if negb (opt_in (role app) ["student"; "librarian"])
  then lift (print MSG_NO_BORROW_ACCESS)
  else
    show_books ;;
    line <- lift (input PROMPT_BORROW_ID) ;;
    book_id <- int line ;;
    return_date <- lift (input PROMPT_RETURN_DATE) ;;
    try_except_ValueError
      (lift (Database.borrow_book book_id (username app) return_date) ;;
       lift (print MSG_BORROWED) ;;
       notify_observers (NOTE_BORROWED book_id (username app)))
      (fun msg => lift (print msg)).

Definition return_book : M State unit :=
  app <- self ;;
  if negb (opt_eqb (role app) "librarian")
  then lift (print MSG_NO_RETURN_ACCESS)
  else
    show_books ;;
    line <- lift (input PROMPT_RETURN_ID) ;;
    book_id <- int line ;;
    try_except_ValueError
      (lift (Database.return_book book_id) ;;
       lift (print MSG_RETURNED) ;;
       notify_observers (NOTE_RETURNED book_id))
      (fun msg => lift (print msg)).

Definition when (b : bool) (c : M State unit) : M State unit :=
  if b then c else ret tt.

(** One turn of the menu loop; [false] is [break]. *)
Definition menu_turn : M State bool :=
  app <- self ;;
  lift (print MENU_SHOW) ;;
  when (opt_in (role app) ["student"; "librarian"])
       (lift (print MENU_BORROW)) ;;
  when (opt_eqb (role app) "librarian") (lift (print MENU_RETURN)) ;;
  lift (print MENU_EXIT) ;;
  choice <- lift (input PROMPT_CHOICE) ;;
  if String.eqb choice "1" then show_books ;; ret true
  else if String.eqb choice "2"
          && opt_in (role app) ["student"; "librarian"]
  then borrow_book ;; ret true
  else if String.eqb choice "3" && opt_eqb (role app) "librarian"
  then return_book ;; ret true
  else if String.eqb choice "0" then ret false
  else lift (print MSG_BAD_CHOICE) ;; ret true.

(** [while True: ...], unrolled at most [fuel] times. *)
Fixpoint menu_loop (fuel : nat) : M State unit :=
  match fuel with
  | O => fun s => (s, Diverge)
  | S fuel' =>
      continue <- menu_turn ;;
      if continue then menu_loop fuel' else ret tt
  end.

Definition run (fuel : nat) : M State unit :=
  login ;;
  menu_loop fuel.

(** The program: a fresh application, one [Logger] registered, and
    the session runs. *)
Definition main (fuel : nat) (e : Env) : State * result unit :=
  run fuel (register_observer Logger __init__, e).

End WithInt.

End LibraryApp.

(* ===================================================================== *)
(** ** Vocabulary of the specification                                    *)
(* ===================================================================== *)

(** The borrow triple of a row is set together or cleared together. *)
Definition triple_inv (b : Lib.row) : Prop :=
  (Lib.borrowed_by b = None <-> Lib.borrow_date b = None)
  /\ (Lib.borrow_date b = None <-> Lib.return_date b = None).

Definition all_set (b : Lib.row) : Prop :=
  Lib.borrowed_by b <> None /\ Lib.borrow_date b <> None
  /\ Lib.return_date b <> None.

Definition all_null (b : Lib.row) : Prop :=
  Lib.borrowed_by b = None /\ Lib.borrow_date b = None
  /\ Lib.return_date b = None.

(** The row a successful borrow leaves, and the row a return leaves. *)
Definition borrowed_row (b : Lib.row) (username : string) (today : date)
    (return_date : string) : Lib.row :=
  Lib.mkRow (Lib.id b) (Lib.title b) (Lib.author b) (Lib.release_date b)
            (Some username) (Some today) (Some return_date).

Definition returned_row (b : Lib.row) : Lib.row :=
  Lib.mkRow (Lib.id b) (Lib.title b) (Lib.author b) (Lib.release_date b)
            None None None.

(** A row is available under an id; a roles row matches a pair. *)
Definition available (book_id : Z) (b : Lib.row) : Prop :=
  Lib.id b = book_id /\ Lib.borrowed_by b = None.

Definition credentials (username password : string) (r : Roles.row) : Prop :=
  Roles.username r = username /\ Roles.password r = password.

(** The message of the [ValueError] with which a borrow is refused: the
    statement's own when a parameter holds a NUL character, the gateway's
    otherwise. *)
Definition borrow_refusal (username : option string) (return_date : string)
    : string :=
  if param_has_nul username || has_nul return_date
  then Database.MSG_NUL
  else Database.MSG_UNAVAILABLE.

(** The two mutating calls of the gateway, as operations of a history;
    a call that raises leaves the history going, as the controller's
    handler does. *)
Inductive op : Type :=
  | Borrow (book_id : Z) (username return_date : string)
  | Return (book_id : Z).

Definition apply_op (o : op) (e : Env) : Env :=
  match o with
  | Borrow book_id username return_date =>
      fst (Database.borrow_book book_id (Some username) return_date e)
  | Return book_id => fst (Database.return_book book_id e)
  end.

Definition apply_ops (ops : list op) (e : Env) : Env :=
  fold_left (fun e o => apply_op o e) ops e.

(** Every subscriber of the list has run [update message] to completion,
    once each, in list order, taking the environment from [e] to [e']. *)
Inductive delivered (message : string)
    : list Observer -> Env -> Env -> Prop :=
  | delivered_nil e : delivered message [] e e
  | delivered_cons o rest e e1 e' :
      update o message e = (e1, Ok tt) ->
      delivered message rest e1 e' ->
      delivered message (o :: rest) e e'.

(** The environment once [show_books] has printed the table. *)
Definition shown (e : Env) : Env :=
  with_stdout
    (stdout e ++ Print LibraryApp.MSG_BOOK_LIST
       :: map Print (map LibraryApp.book_line (lib e)))
    (with_rowcount (Z.of_nat (length (lib e))) e).

(** ... and once a prompt has been answered. *)
Definition prompted (prompt : string) (rest : list string) (e : Env) : Env :=
  with_stdin rest (with_stdout (stdout e ++ [Prompt prompt]) e).

Definition printed (s : string) (e : Env) : Env :=
  with_stdout (stdout e ++ [Print s]) e.

(** What the controller leaves when the notification inside its [try]
    ends with the outcome [r]: a [ValueError] is caught and its message
    printed, anything else goes through. *)
Definition after_notify (app : LibraryApp.t) (r : Env * result unit)
    : LibraryApp.State * result unit :=
  match r with
  | (e, Raise (ValueError msg)) => ((app, printed msg e), Ok tt)
  | (e, r') => ((app, e), r')
  end.

(** The environment in which the controller calls the gateway: the table
    was shown and the prompts were answered. *)
Definition asked_borrow (return_date : string) (rest : list string)
    (e : Env) : Env :=
  prompted LibraryApp.PROMPT_RETURN_DATE rest
    (prompted LibraryApp.PROMPT_BORROW_ID (return_date :: rest) (shown e)).

Definition asked_return (rest : list string) (e : Env) : Env :=
  prompted LibraryApp.PROMPT_RETURN_ID rest (shown e).

(** The environment a borrow leaves once its statement has run, whatever
    the row count, and the one a return leaves. *)
Definition borrow_env (book_id : Z) (username : option string)
    (return_date : string) (e : Env) : Env :=
  with_rowcount (Database.count_rows (Database.borrow_cond book_id) (lib e))
    (with_lib
       (Database.update_rows (Database.borrow_cond book_id)
          (Database.borrow_set username (dt_date (clock e (ticks e)))
             return_date) (lib e))
       (with_ticks (S (ticks e)) e)).

Definition return_env (book_id : Z) (e : Env) : Env :=
  with_rowcount (Database.count_rows (Database.return_cond book_id) (lib e))
    (with_lib
       (Database.update_rows (Database.return_cond book_id)
          Database.return_set (lib e)) e).

(** A subscriber is tame when its [update] comes to an end and types
    nothing on the terminal's behalf. *)
Definition tame (o : Observer) : Prop :=
  forall message e,
    snd (update o message e) <> Diverge
    /\ (length (stdin (fst (update o message e))) <= length (stdin e))%nat.

(** A call of the controller settles when, whatever its outcome, it comes
    to an end, keeps the application object and types nothing. *)
Definition settles (c : M LibraryApp.State unit) (app : LibraryApp.t)
    (e : Env) : Prop :=
  snd (c (app, e)) <> Diverge
  /\ fst (fst (c (app, e))) = app
  /\ (length (stdin (snd (fst (c (app, e))))) <= length (stdin e))%nat.


(** The menu as printed for a role. *)
Definition menu_lines (role : option string) : list output :=
  [Print LibraryApp.MENU_SHOW]
  ++ (if opt_in role ["student"; "librarian"]
      then [Print LibraryApp.MENU_BORROW] else [])
  ++ (if opt_eqb role "librarian" then [Print LibraryApp.MENU_RETURN] else [])
  ++ [Print LibraryApp.MENU_EXIT].

(** The environment once the menu has been printed for the session. *)
Definition menu_shown (app : LibraryApp.t) (e : Env) : Env :=
  with_stdout (stdout e ++ menu_lines (LibraryApp.role app)) e.

(* ===================================================================== *)
(** ** A small concrete world                                             *)
(* ===================================================================== *)

Module Sample.

(** An instance of the reading of a line for the examples.  Like the
    built-in [int] it strips blanks at both ends, takes a sign and takes
    single underscores between digits; it is the built-in on the lines of
    the examples, not on every line (digits other than 0-9, the length
    limit and the quoting of odd characters in the error text are left
    out). *)
Definition is_blank (c : Ascii.ascii) : bool :=
  let n := Ascii.nat_of_ascii c in
  ((9 <=? n) && (n <=? 13) || (28 <=? n) && (n <=? 32))%nat.

Fixpoint lstrip (s : string) : string :=
  match s with
  | String c s' => if is_blank c then lstrip s' else s
  | EmptyString => EmptyString
  end.

Fixpoint rstrip (s : string) : string :=
  match s with
  | String c s' =>
      match rstrip s' with
      | EmptyString => if is_blank c then EmptyString else String c EmptyString
      | t => String c t
      end
  | EmptyString => EmptyString
  end.

Definition digit (c : Ascii.ascii) : option Z :=
  let n := Ascii.nat_of_ascii c in
  if ((48 <=? n) && (n <=? 57))%nat then Some (Z.of_nat n - 48) else None.

(** Digits with single underscores between them; [after_digit] tells
    whether the character before was a digit. *)
Fixpoint digits (s : string) (after_digit : bool) (acc : Z) : option Z :=
  match s with
  | EmptyString => if after_digit then Some acc else None
  | String c s' =>
      match digit c with
      | Some d => digits s' true (10 * acc + d)
      | None =>
          if Ascii.eqb c (Ascii.ascii_of_nat 95) && after_digit
          then digits s' false acc
          else None
      end
  end.

Definition dec_int (s : string) : Z + string :=
  let body := rstrip (lstrip s) in
  let parsed :=
    match body with
    | String c t =>
        if Ascii.eqb c (Ascii.ascii_of_nat 45)
        then option_map Z.opp (digits t false 0)
        else if Ascii.eqb c (Ascii.ascii_of_nat 43)
        then digits t false 0
        else digits body false 0
    | EmptyString => None
    end in
  match parsed with
  | Some z => inl z
  | None => inr ("invalid literal for int() with base 10: '" ++ s ++ "'")
  end.

(** A name and a date that hold a NUL character. *)
Definition nul_name : string := "ali" ++ String Ascii.zero "ce".
Definition nul_date : string := "2025-01-01" ++ String Ascii.zero "".

Definition book5 : Lib.row :=
  Lib.mkRow 5 "Dune" "Herbert" "1965-08-01" None None None.

Definition book6 : Lib.row :=
  Lib.mkRow 6 "Emma" "Austen" "1815-12-23"
            (Some "bob") (Some "2024-11-30") (Some "2024-12-31").

Definition users : list Roles.row :=
  [Roles.mkRow "alice" "wonder" "student";
   Roles.mkRow "carol" "books" "librarian"].

Definition wall (n : nat) : datetime :=
  mkDatetime "2024-12-01" ("10:00:0" ++ pretty n).

Definition world (typed : list string) : Env :=
  mkEnv [book5; book6] users (-1) typed [] [] (fun _ => None) wall 0%nat.

Definition student (obs : list Observer) : LibraryApp.t :=
  LibraryApp.mk (Some "student") (Some "alice") obs.

Definition librarian (obs : list Observer) : LibraryApp.t :=
  LibraryApp.mk (Some "librarian") (Some "carol") obs.

(** A subscriber whose [update] rejects the message. *)
Definition Rejecting : Observer :=
  mkObserver (fun _ => raise (ValueError "rejected")).

(** A platform whose log encoding cannot take the text. *)
Definition unencodable (line : string) : option exn :=
  Some (ValueError "codec can't encode characters").

Definition with_log_fault (f : string -> option exn) (e : Env) : Env :=
  mkEnv (lib e) (roles e) (rowcount e) (stdin e) (stdout e) (log_file e)
        f (clock e) (ticks e).

End Sample.

(* ===================================================================== *)
(** ** Vocabulary of the session-wide properties                          *)
(* ===================================================================== *)

(** What of a row no statement of the program writes. *)
Definition catalogue (b : Lib.row) : Z * string * string * date :=
  (Lib.id b, Lib.title b, Lib.author b, Lib.release_date b).

(** A subscriber is quiet when its [update] leaves both tables alone. *)
Definition quiet (o : Observer) : Prop :=
  forall message e,
    lib (fst (update o message e)) = lib e
    /\ roles (fst (update o message e)) = roles e.

(** A call of the controller keeps a relation [R] between the environment
    it starts in and the one it leaves, for the application object [app]
    and under the standing condition [P], whatever its outcome; the
    application object is left as it was. *)
Definition keeps (P : LibraryApp.t -> Env -> Prop) (R : Env -> Env -> Prop)
    (app : LibraryApp.t) {A} (c : M LibraryApp.State A) : Prop :=
  forall e, P app e ->
    fst (fst (c (app, e))) = app /\ R e (snd (fst (c (app, e)))).

(** Row for row (a position of the list standing for a row of the
    table), the books are the same books; and the roles the same roles. *)
Definition same_catalogue (e e' : Env) : Prop :=
  map catalogue (lib e') = map catalogue (lib e) /\ roles e' = roles e.

(** The books are the same books, in whatever order the table holds
    them, and the roles the same roles. *)
Definition same_books (e e' : Env) : Prop :=
  map catalogue (lib e') ≡ₚ map catalogue (lib e) /\ roles e' = roles e.

(** The triple invariant carries over. *)
Definition carries_triple_inv (e e' : Env) : Prop :=
  Forall triple_inv (lib e) -> Forall triple_inv (lib e').

(** Every row that has a borrower is still the row it was. *)
Definition borrowed_rows_kept (e e' : Env) : Prop :=
  forall (i : nat) (b : Lib.row),
    lib e !! i = Some b -> Lib.borrowed_by b <> None -> lib e' !! i = Some b.

(** The standing conditions of a session: its subscribers are quiet; it
    also has a user name; it also is not a librarian's. *)
Definition quiet_session (app : LibraryApp.t) (e : Env) : Prop :=
  Forall quiet (LibraryApp.observers app).

Definition named_session (app : LibraryApp.t) (e : Env) : Prop :=
  LibraryApp.username app <> None /\ Forall quiet (LibraryApp.observers app).

Definition reader_session (app : LibraryApp.t) (e : Env) : Prop :=
  LibraryApp.role app <> Some "librarian"
  /\ Forall quiet (LibraryApp.observers app).

(* ===================================================================== *)
(** ** The gateway                                                        *)
(* ===================================================================== *)

Section Gateway.

Implicit Types (e : Env) (b : Lib.row) (rows : list Lib.row).

Lemma update_rows_lookup cond set rows (i : nat) :
  Database.update_rows cond set rows !! i
  = (fun b => if cond b then set b else b) <$> rows !! i.
Proof.
  unfold Database.update_rows. revert i.
  induction rows as [|b rows IH]; intros [|i]; simpl; auto.
Qed.

Lemma update_rows_length cond set rows :
  length (Database.update_rows cond set rows) = length rows.
Proof. unfold Database.update_rows. apply length_map. Qed.

Lemma update_rows_fixed cond set rows :
  (forall b, b ∈ rows -> cond b = true -> set b = b) ->
  Database.update_rows cond set rows = rows.
Proof.
  unfold Database.update_rows.
  induction rows as [|b rows IH]; intros H; simpl; [reflexivity|].
  rewrite IH by (intros; apply H; [right|]; assumption).
  destruct (cond b) eqn:Hc; [|reflexivity].
  rewrite H; [reflexivity|left|assumption].
Qed.

Lemma count_rows_nonneg {A} (cond : A -> bool) (l : list A) :
  0 <= Database.count_rows cond l.
Proof. unfold Database.count_rows. lia. Qed.

Lemma count_rows_zero {A} (cond : A -> bool) (l : list A) :
  Database.count_rows cond l = 0 <-> forall x, x ∈ l -> cond x = false.
Proof.
  unfold Database.count_rows.
  induction l as [|x l IH]; simpl.
  - split; [intros _ y Hy; inversion Hy | reflexivity].
  - destruct (cond x) eqn:Hc; simpl.
    + split; [lia|]. intros H. specialize (H x (list_elem_of_here _ _)).
      congruence.
    + rewrite IH. split.
      * intros H y Hy. inversion Hy; subst; auto.
      * intros H y Hy. apply H. now right.
Qed.

Lemma count_rows_update cond set rows :
  (forall b, cond (set b) = cond b) ->
  Database.count_rows cond (Database.update_rows cond set rows)
  = Database.count_rows cond rows.
Proof.
  intros Hs. unfold Database.count_rows, Database.update_rows. f_equal.
  induction rows as [|b rows IH]; simpl; [reflexivity|].
  destruct (cond b) eqn:Hc.
  - rewrite Hs, Hc. simpl. now rewrite IH.
  - rewrite Hc. apply IH.
Qed.

Lemma borrow_cond_true book_id b :
  Database.borrow_cond book_id b = true <-> available book_id b.
Proof.
  unfold Database.borrow_cond, available.
  rewrite andb_true_iff, Z.eqb_eq.
  destruct (Lib.borrowed_by b); simpl; intuition congruence.
Qed.

Lemma borrow_cond_false book_id b :
  Database.borrow_cond book_id b = false <-> ~ available book_id b.
Proof.
  rewrite <- borrow_cond_true. destruct (Database.borrow_cond book_id b);
    intuition congruence.
Qed.

Lemma return_cond_true book_id b :
  Database.return_cond book_id b = true <-> Lib.id b = book_id.
Proof. apply Z.eqb_eq. Qed.

Lemma return_cond_false book_id b :
  Database.return_cond book_id b = false <-> Lib.id b <> book_id.
Proof. apply Z.eqb_neq. Qed.

Lemma MSG_NUL_other : Database.MSG_NUL <> Database.MSG_UNAVAILABLE.
Proof. discriminate. Qed.

Lemma borrow_params_nul (username : option string) (return_date : string) :
  existsb param_has_nul [username; Some return_date]
  = param_has_nul username || has_nul return_date.
Proof. simpl. now rewrite orb_false_r. Qed.

(** The two ways of a borrow: refused before anything is sent, or run. *)
Lemma borrow_book_unfold book_id username return_date e :
  Database.borrow_book book_id username return_date e
  = if param_has_nul username || has_nul return_date
    then (with_ticks (S (ticks e)) e, Raise (ValueError Database.MSG_NUL))
    else (borrow_env book_id username return_date e,
          if Database.count_rows (Database.borrow_cond book_id) (lib e) =? 0
          then Raise (ValueError Database.MSG_UNAVAILABLE) else Ok tt).
Proof.
  unfold Database.borrow_book, Database.adapt.
  unfold bind at 1, now. unfold bind at 1.
  rewrite borrow_params_nul.
  destruct (param_has_nul username || has_nul return_date); [reflexivity|].
  unfold bind, Database.execute_update, Database.commit, modify, ret, get,
    raise, borrow_env. simpl.
  destruct (Database.count_rows _ _ =? 0); reflexivity.
Qed.

Lemma borrow_book_clean book_id username return_date e :
  param_has_nul username || has_nul return_date = false ->
  Database.borrow_book book_id username return_date e
  = (borrow_env book_id username return_date e,
     if Database.count_rows (Database.borrow_cond book_id) (lib e) =? 0
     then Raise (ValueError Database.MSG_UNAVAILABLE) else Ok tt).
Proof. intros H. now rewrite borrow_book_unfold, H. Qed.

Lemma borrow_book_nul book_id username return_date e :
  param_has_nul username || has_nul return_date = true ->
  Database.borrow_book book_id username return_date e
  = (with_ticks (S (ticks e)) e, Raise (ValueError Database.MSG_NUL)).
Proof. intros H. now rewrite borrow_book_unfold, H. Qed.

Lemma clean_strings (username return_date : string) :
  has_nul username = false -> has_nul return_date = false ->
  param_has_nul (Some username) || has_nul return_date = false.
Proof. intros H1 H2. simpl. now rewrite H1, H2. Qed.

Lemma return_book_unfold book_id e :
  Database.return_book book_id e = (return_env book_id e, Ok tt).
Proof. reflexivity. Qed.


Lemma count_rows_pos {A} (cond : A -> bool) (l : list A) :
  Database.count_rows cond l <> 0 -> exists x, x ∈ l /\ cond x = true.
Proof.
  unfold Database.count_rows.
  induction l as [|x l IH]; simpl; [lia|].
  destruct (cond x) eqn:Hc.
  - intros _. exists x. split; [left | assumption].
  - intros H. destruct (IH H) as (y & Hy & Hcy).
    exists y. split; [now right | assumption].
Qed.

Lemma borrow_result_raise book_id (username : option string) return_date e :
  param_has_nul username || has_nul return_date = false ->
  snd (Database.borrow_book book_id username return_date e)
  = Raise (ValueError Database.MSG_UNAVAILABLE)
  <-> forall b, b ∈ lib e -> ~ available book_id b.
Proof.
  intros Hclean. rewrite (borrow_book_clean _ _ _ _ Hclean). simpl.
  destruct (Z.eqb_spec
    (Database.count_rows (Database.borrow_cond book_id) (lib e)) 0)
    as [Hz|Hz].
  - split; [intros _ | reflexivity].
    intros b Hb. apply borrow_cond_false.
    now apply (proj1 (count_rows_zero _ _) Hz).
  - split; [discriminate|]. intros H. exfalso. apply Hz.
    apply count_rows_zero. intros b Hb. apply borrow_cond_false. auto.
Qed.

Lemma borrow_result_ok book_id (username : option string) return_date e :
  param_has_nul username || has_nul return_date = false ->
  snd (Database.borrow_book book_id username return_date e) = Ok tt
  <-> exists b, b ∈ lib e /\ available book_id b.
Proof.
  intros Hclean. rewrite (borrow_book_clean _ _ _ _ Hclean). simpl.
  destruct (Z.eqb_spec
    (Database.count_rows (Database.borrow_cond book_id) (lib e)) 0)
    as [Hz|Hz].
  - split; [discriminate|]. intros (b & Hb & Hav). exfalso.
    apply borrow_cond_true in Hav.
    rewrite (proj1 (count_rows_zero _ _) Hz b Hb) in Hav. discriminate.
  - split; [intros _ | reflexivity].
    destruct (count_rows_pos _ _ Hz) as (b & Hb & Hc).
    exists b. split; [assumption | now apply borrow_cond_true].
Qed.

Lemma borrow_raise_keeps_lib book_id (username : option string)
    return_date e :
  (forall b, b ∈ lib e -> ~ available book_id b) ->
  lib (fst (Database.borrow_book book_id username return_date e)) = lib e.
Proof.
  intros H. rewrite borrow_book_unfold.
  destruct (param_has_nul username || has_nul return_date); [reflexivity|].
  simpl. apply update_rows_fixed. intros b Hb Hc.
  apply borrow_cond_true in Hc. now destruct (H b Hb).
Qed.

(** A borrow that finds no row to write is refused with a [ValueError],
    the statement's own or the gateway's. *)
Lemma borrow_refused book_id (username : option string) return_date e :
  (forall b, b ∈ lib e -> ~ available book_id b) ->
  snd (Database.borrow_book book_id username return_date e)
  = Raise (ValueError (borrow_refusal username return_date)).
Proof.
  intros H. rewrite borrow_book_unfold. unfold borrow_refusal.
  destruct (param_has_nul username || has_nul return_date); [reflexivity|].
  simpl. rewrite (proj2 (count_rows_zero _ _)); [reflexivity|].
  intros b Hb. apply borrow_cond_false. auto.
Qed.

Lemma borrow_keeps_roles book_id (username : option string) return_date e :
  roles (fst (Database.borrow_book book_id username return_date e)) = roles e.
Proof.
  rewrite borrow_book_unfold.
  now destruct (param_has_nul username || has_nul return_date).
Qed.

End Gateway.

(** C1, as the code has it.  For a username and a return date that hold
    no NUL character, [Database.borrow_book] rewrites exactly the rows
    whose id matches and whose [borrowed_by] is null, setting
    [borrowed_by] to the username, [borrow_date] to the date read from the
    clock and [return_date] to the given text; every other row and the
    roles table stay as they were; and it raises the one "book
    unavailable" [ValueError] exactly when no row matched, be it because
    the id is absent or because the book is out.  When either text holds a
    NUL character the statement is refused before it is sent, with a
    [ValueError] of its own, and both tables stay as they were. *)
Theorem borrow_book_conditional_update
    (book_id : Z) (username return_date : string) (e : Env) :
  let today := dt_date (clock e (ticks e)) in
  let e' := fst (Database.borrow_book book_id (Some username) return_date e) in
  let r := snd (Database.borrow_book book_id (Some username) return_date e) in
  (has_nul username = false -> has_nul return_date = false ->
   length (lib e') = length (lib e)
   /\ (forall (i : nat) b, lib e !! i = Some b -> available book_id b ->
         lib e' !! i = Some (borrowed_row b username today return_date))
   /\ (forall (i : nat) b, lib e !! i = Some b -> ~ available book_id b ->
         lib e' !! i = Some b)
   /\ roles e' = roles e
   /\ (r = Raise (ValueError Database.MSG_UNAVAILABLE)
       <-> forall b, b ∈ lib e -> ~ available book_id b)
   /\ (r = Ok tt <-> exists b, b ∈ lib e /\ available book_id b)
   /\ ((forall b, b ∈ lib e -> Lib.id b <> book_id) ->
       r = Raise (ValueError Database.MSG_UNAVAILABLE))
   /\ ((forall b, b ∈ lib e -> Lib.id b = book_id ->
                  Lib.borrowed_by b <> None) ->
       r = Raise (ValueError Database.MSG_UNAVAILABLE)))
  /\ (has_nul username = true \/ has_nul return_date = true ->
      r = Raise (ValueError Database.MSG_NUL)
      /\ lib e' = lib e /\ roles e' = roles e).
Proof.
  intros today e' r. split.
  - intros Hu Hd. pose proof (clean_strings username return_date Hu Hd)
      as Hclean.
    assert (Hlib : lib e'
              = Database.update_rows (Database.borrow_cond book_id)
                  (Database.borrow_set (Some username) today return_date)
                  (lib e)).
    { subst e'. now rewrite (borrow_book_clean _ _ _ _ Hclean). }
    repeat split.
    + rewrite Hlib. apply update_rows_length.
    + intros i b Hi Hav. rewrite Hlib, update_rows_lookup, Hi. simpl.
      now rewrite (proj2 (borrow_cond_true book_id b) Hav).
    + intros i b Hi Hav. rewrite Hlib, update_rows_lookup, Hi. simpl.
      now rewrite (proj2 (borrow_cond_false book_id b) Hav).
    + apply borrow_keeps_roles.
    + now apply borrow_result_raise.
    + now apply borrow_result_raise.
    + now apply borrow_result_ok.
    + now apply borrow_result_ok.
    + intros H. apply borrow_result_raise; [assumption|].
      intros b Hb [Hid _]. now apply (H b).
    + intros H. apply borrow_result_raise; [assumption|].
      intros b Hb [Hid Hn]. now apply (H b).
  - intros Hnul.
    assert (H : param_has_nul (Some username) || has_nul return_date = true).
    { simpl. destruct Hnul as [-> | ->]; [reflexivity | apply orb_true_r]. }
    subst r e'. rewrite (borrow_book_nul _ _ _ _ H). now repeat split.
Qed.

(** The example of the specification: book 5 is free, alice borrows it
    until 2025-01-01. *)
Lemma borrow_book_conditional_update_witness :
  lib (fst (Database.borrow_book 5 (Some "alice") "2025-01-01"
              (Sample.world []))) !! 0%nat
  = Some (Lib.mkRow 5 "Dune" "Herbert" "1965-08-01"
            (Some "alice") (Some "2024-12-01") (Some "2025-01-01"))
  /\ snd (Database.borrow_book 5 (Some "alice") "2025-01-01"
            (Sample.world [])) = Ok tt.
Proof.
  destruct (borrow_book_conditional_update 5 "alice" "2025-01-01"
              (Sample.world [])) as [Hclean _].
  destruct (Hclean eq_refl eq_refl) as (_ & Hset & _ & _ & _ & Hok & _).
  split.
  - apply (Hset 0%nat Sample.book5); [reflexivity | split; reflexivity].
  - apply Hok. exists Sample.book5. split; [left | split; reflexivity].
Defined.

(** C1 as stated fails for a text that holds a NUL character: book 5 is
    free, so a row matches, and yet the row is not written and the error
    raised is not the "book unavailable" one. *)
Lemma borrow_book_refuses_nul :
  let g := Database.borrow_book 5 (Some Sample.nul_name) "2025-01-01"
             (Sample.world []) in
  available 5 Sample.book5
  /\ lib (Sample.world []) !! 0%nat = Some Sample.book5
  /\ lib (fst g) !! 0%nat = Some Sample.book5
  /\ snd g = Raise (ValueError Database.MSG_NUL)
  /\ snd g <> Raise (ValueError Database.MSG_UNAVAILABLE)
  /\ snd g <> Ok tt.
Proof.
  cbv zeta. repeat split; try (vm_compute; reflexivity);
    vm_compute; discriminate.
Qed.

Section History.

Lemma apply_op_lookup (o : op) (e : Env) (i : nat) :
  lib (apply_op o e) !! i
  = match o with
    | Borrow book_id username return_date =>
        (fun b => if negb (has_nul username || has_nul return_date)
                     && Database.borrow_cond book_id b
                  then borrowed_row b username
                         (dt_date (clock e (ticks e))) return_date
                  else b) <$> lib e !! i
    | Return book_id =>
        (fun b => if Database.return_cond book_id b
                  then returned_row b else b) <$> lib e !! i
    end.
Proof.
  destruct o as [book_id username return_date | book_id]; simpl.
  - rewrite borrow_book_unfold. simpl.
    destruct (has_nul username || has_nul return_date); simpl.
    + now destruct (lib e !! i).
    + apply update_rows_lookup.
  - apply update_rows_lookup.
Qed.

Lemma apply_op_row (o : op) (e : Env) (i : nat) (b b' : Lib.row) :
  lib e !! i = Some b -> lib (apply_op o e) !! i = Some b' ->
  b' = b \/ (all_set b' /\ ~ all_null b') \/ (all_null b' /\ ~ all_set b').
Proof.
  intros Hi. rewrite apply_op_lookup, Hi.
  destruct o as [book_id username return_date | book_id]; simpl.
  - destruct (negb (has_nul username || has_nul return_date)
              && Database.borrow_cond book_id b);
      intros [= <-]; [|now left].
    right; left. unfold all_set, all_null. simpl.
    repeat split; try discriminate. intros (H & _). discriminate.
  - destruct (Database.return_cond book_id b); intros [= <-]; [|now left].
    right; right. unfold all_set, all_null. simpl.
    repeat split. intros (H & _). now apply H.
Qed.

Lemma triple_inv_all_set (b : Lib.row) : all_set b -> triple_inv b.
Proof. unfold all_set, triple_inv. intuition congruence. Qed.

Lemma triple_inv_all_null (b : Lib.row) : all_null b -> triple_inv b.
Proof. unfold all_null, triple_inv. intuition congruence. Qed.

Lemma apply_op_inv (o : op) (e : Env) :
  Forall triple_inv (lib e) -> Forall triple_inv (lib (apply_op o e)).
Proof.
  intros H. apply Forall_lookup_2. intros i b' Hi'.
  assert (Hsome : is_Some (lib e !! i)).
  { rewrite apply_op_lookup in Hi'.
    destruct o; destruct (lib e !! i); simpl in Hi'; eauto; discriminate. }
  destruct Hsome as [b Hi].
  destruct (apply_op_row o e i b b' Hi Hi') as [-> | [[Hs _] | [Hn _]]].
  - exact (Forall_lookup_1 _ _ _ _ H Hi).
  - now apply triple_inv_all_set.
  - now apply triple_inv_all_null.
Qed.

Lemma apply_ops_inv (ops : list op) (e : Env) :
  Forall triple_inv (lib e) -> Forall triple_inv (lib (apply_ops ops e)).
Proof.
  revert e. induction ops as [|o ops IH]; intros e H; simpl; [assumption|].
  apply IH. now apply apply_op_inv.
Qed.

End History.

(** C2. Along every history of [borrow_book] and [return_book] calls the
    triple [borrowed_by], [borrow_date], [return_date] of every row stays
    null together or set together: one call leaves a row as it was, or sets
    all three of its fields, or clears all three, never a proper subset. *)
Theorem borrow_triple_invariant :
  (forall (o : op) (e : Env) (i : nat) (b b' : Lib.row),
      lib e !! i = Some b -> lib (apply_op o e) !! i = Some b' ->
      b' = b \/ (all_set b' /\ ~ all_null b') \/ (all_null b' /\ ~ all_set b'))
  /\ (forall (ops : list op) (e : Env),
        Forall triple_inv (lib e) ->
        Forall triple_inv (lib (apply_ops ops e))).
Proof. split; [exact apply_op_row | exact apply_ops_inv]. Qed.

Lemma borrow_triple_invariant_witness :
  Forall triple_inv
    (lib (apply_ops [Borrow 5 "alice" "2025-01-01"; Borrow 5 "dave" "2025-02-02";
                     Return 6; Return 7; Borrow 6 "alice" "2025-03-03"]
            (Sample.world []))).
Proof.
  apply (proj2 borrow_triple_invariant).
  repeat constructor; simpl; intuition congruence.
Defined.

(** C3. [Database.return_book] raises nothing, whatever the id and the
    store; it clears the triple of every row with that id, keeps every
    other row and the roles table, and is a no-op on the table when no row
    has the id or when the rows that have it are already clear. *)
Theorem return_book_unconditional_clear (book_id : Z) (e : Env) :
  let e' := fst (Database.return_book book_id e) in
  snd (Database.return_book book_id e) = Ok tt
  /\ length (lib e') = length (lib e)
  /\ (forall (i : nat) b, lib e !! i = Some b -> Lib.id b = book_id ->
        lib e' !! i = Some (returned_row b))
  /\ (forall (i : nat) b, lib e !! i = Some b -> Lib.id b <> book_id ->
        lib e' !! i = Some b)
  /\ roles e' = roles e
  /\ ((forall b, b ∈ lib e -> Lib.id b <> book_id) -> lib e' = lib e)
  /\ ((forall b, b ∈ lib e -> Lib.id b = book_id -> all_null b) ->
      lib e' = lib e).
Proof.
  intros e'. subst e'. rewrite return_book_unfold. simpl.
  repeat split.
  - apply update_rows_length.
  - intros i b Hi Hid. rewrite update_rows_lookup, Hi. simpl.
    now rewrite (proj2 (return_cond_true book_id b) Hid).
  - intros i b Hi Hid. rewrite update_rows_lookup, Hi. simpl.
    now rewrite (proj2 (return_cond_false book_id b) Hid).
  - intros H. apply update_rows_fixed. intros b Hb Hc.
    apply return_cond_true in Hc. now destruct (H b Hb).
  - intros H. apply update_rows_fixed. intros b Hb Hc.
    apply return_cond_true in Hc. destruct (H b Hb Hc) as (H1 & H2 & H3).
    destruct b; simpl in *. unfold Database.return_set. simpl. congruence.
Qed.

Lemma return_book_unconditional_clear_witness :
  lib (fst (Database.return_book 6 (Sample.world []))) !! 1%nat
  = Some (Lib.mkRow 6 "Emma" "Austen" "1815-12-23" None None None)
  /\ lib (fst (Database.return_book 6 (Sample.world []))) !! 0%nat
     = Some Sample.book5
  /\ lib (fst (Database.return_book 7 (Sample.world [])))
     = lib (Sample.world [])
  /\ lib (fst (Database.return_book 5 (Sample.world [])))
     = lib (Sample.world []).
Proof.
  destruct (return_book_unconditional_clear 6 (Sample.world []))
    as (_ & _ & Hclr & Hkeep & _).
  destruct (return_book_unconditional_clear 7 (Sample.world []))
    as (_ & _ & _ & _ & _ & Habsent & _).
  destruct (return_book_unconditional_clear 5 (Sample.world []))
    as (_ & _ & _ & _ & _ & _ & Hclear).
  split; [|split; [|split]].
  - apply (Hclr 1%nat Sample.book6); reflexivity.
  - apply (Hkeep 0%nat Sample.book5); [reflexivity | discriminate].
  - apply Habsent. intros b Hb.
    apply list_elem_of_In in Hb. simpl in Hb.
    destruct Hb as [<- | [<- | []]]; discriminate.
  - apply Hclear. intros b Hb Hid.
    apply list_elem_of_In in Hb. simpl in Hb.
    destruct Hb as [<- | [<- | []]]; [repeat split | discriminate].
Defined.

Section Authentication.

Lemma auth_cond_true username password (r : Roles.row) :
  Database.auth_cond username password r = true
  <-> credentials username password r.
Proof.
  unfold Database.auth_cond, credentials.
  now rewrite andb_true_iff, !String.eqb_eq.
Qed.

Lemma auth_cond_false username password (r : Roles.row) :
  Database.auth_cond username password r = false
  <-> ~ credentials username password r.
Proof.
  rewrite <- auth_cond_true.
  destruct (Database.auth_cond username password r); intuition congruence.
Qed.

Lemma authenticate_user_unfold username password e :
  Database.authenticate_user username password e
  = if has_nul username || has_nul password
    then (e, Raise (ValueError Database.MSG_NUL))
    else (with_rowcount
            (Z.of_nat (length (List.filter
                                 (Database.auth_cond username password)
                                 (roles e)))) e,
          Ok (match List.filter (Database.auth_cond username password)
                      (roles e)
              with
              | r :: _ => Some (Roles.role r)
              | [] => None
              end)).
Proof.
  unfold Database.authenticate_user, Database.adapt. unfold bind at 1.
  rewrite (borrow_params_nul (Some username) password). cbn [param_has_nul].
  destruct (has_nul username || has_nul password); [reflexivity|].
  unfold bind, get, modify, ret. simpl.
  destruct (List.filter _ (roles e)); reflexivity.
Qed.

Lemma authenticate_user_clean username password e :
  has_nul username || has_nul password = false ->
  Database.authenticate_user username password e
  = (with_rowcount
       (Z.of_nat (length (List.filter (Database.auth_cond username password)
                            (roles e)))) e,
     Ok (match List.filter (Database.auth_cond username password) (roles e)
         with
         | r :: _ => Some (Roles.role r)
         | [] => None
         end)).
Proof. intros H. now rewrite authenticate_user_unfold, H. Qed.

(** An answer of the store tells that the pair held no NUL. *)
Lemma authenticate_answer_clean username password e (o : option string) :
  snd (Database.authenticate_user username password e) = Ok o ->
  has_nul username || has_nul password = false.
Proof.
  rewrite authenticate_user_unfold.
  destruct (has_nul username || has_nul password); [discriminate|reflexivity].
Qed.

(** The first selected row is the first row of the table that
    satisfies the condition. *)
Lemma filter_first {A} (c : A -> bool) (l : list A) :
  match List.filter c l with
  | [] => forall x, x ∈ l -> c x = false
  | r :: _ => exists pre post,
      l = (pre ++ r :: post)%list /\ (forall x, x ∈ pre -> c x = false)
      /\ c r = true
  end.
Proof.
  induction l as [|x l IH]; simpl.
  - intros y Hy. inversion Hy.
  - destruct (c x) eqn:Hc.
    + exists [], l. repeat split; [|assumption].
      intros y Hy. inversion Hy.
    + destruct (List.filter c l) as [|r sel].
      * intros y Hy. inversion Hy; subst; auto.
      * destruct IH as (pre & post & -> & Hpre & Hr).
        exists (x :: pre), post. repeat split; [|assumption].
        intros y Hy. inversion Hy; subst; auto.
Qed.

Lemma filter_first_app {A} (c : A -> bool) (pre post : list A) (r : A) :
  (forall x, x ∈ pre -> c x = false) -> c r = true ->
  exists sel, List.filter c (pre ++ r :: post)%list = r :: sel.
Proof.
  induction pre as [|x pre IH]; intros Hpre Hr; simpl.
  - rewrite Hr. eauto.
  - rewrite (Hpre x) by left. apply IH; [|assumption].
    intros y Hy. apply Hpre. now right.
Qed.

End Authentication.

(** C4, as the code has it.  For a username and a password that hold no
    NUL character, [Database.authenticate_user] returns a role exactly
    when some row of the roles table carries that very username and that
    very password, compared as they are; the role is the one stored in
    the first such row, and when no row matches the answer is [None].
    When either text holds a NUL character the statement is refused with
    a [ValueError] and nothing is returned.  Nothing is written. *)
Theorem authenticate_user_exact_match (username password : string) (e : Env) :
  let r := snd (Database.authenticate_user username password e) in
  let e' := fst (Database.authenticate_user username password e) in
  (forall role, r = Ok (Some role) ->
     exists row, row ∈ roles e /\ credentials username password row
                 /\ Roles.role row = role)
  /\ (has_nul username = false -> has_nul password = false ->
      ((exists row, row ∈ roles e /\ credentials username password row)
       <-> exists role, r = Ok (Some role))
      /\ ((forall row, row ∈ roles e -> ~ credentials username password row)
          <-> r = Ok None)
      /\ (forall pre row post,
            roles e = (pre ++ row :: post)%list ->
            (forall x, x ∈ pre -> ~ credentials username password x) ->
            credentials username password row ->
            r = Ok (Some (Roles.role row))))
  /\ (has_nul username = true \/ has_nul password = true ->
      r = Raise (ValueError Database.MSG_NUL))
  /\ lib e' = lib e /\ roles e' = roles e.
Proof.
  intros r e'. subst r e'. rewrite authenticate_user_unfold.
  destruct (has_nul username || has_nul password) eqn:Hnul.
  { simpl. split; [discriminate|]. split; [|split; [reflexivity | now split]].
    intros Hu Hp. rewrite Hu, Hp in Hnul. discriminate. }
  cbn [fst snd].
  pose proof (filter_first (Database.auth_cond username password) (roles e))
    as Hsel.
  assert (Hclean : has_nul username = true \/ has_nul password = true ->
            @Ok (option string)
              match List.filter (Database.auth_cond username password)
                      (roles e)
              with
              | r :: _ => Some (Roles.role r)
              | [] => None
              end = Raise (ValueError Database.MSG_NUL)).
  { apply orb_false_iff in Hnul. destruct Hnul as [Hu Hp].
    intros [H | H]; congruence. }
  destruct (List.filter (Database.auth_cond username password) (roles e))
    as [|r0 sel] eqn:Hf.
  - split; [discriminate|].
    split; [|split; [exact Hclean | split; reflexivity]].
    intros _ _. split; [|split].
    + split; [|intros [role [=]]].
      intros (row & Hrow & Hcr). apply auth_cond_true in Hcr.
      rewrite (Hsel row Hrow) in Hcr. discriminate.
    + split; [reflexivity|]. intros _ row Hrow.
      apply auth_cond_false. auto.
    + intros pre row post Heq Hpre Hrow. exfalso.
      apply auth_cond_true in Hrow. rewrite Hsel in Hrow; [discriminate|].
      rewrite Heq. apply elem_of_app. right. left.
  - destruct Hsel as (pre0 & post0 & Heq0 & Hpre0 & Hr0).
    assert (Hin0 : r0 ∈ roles e).
    { rewrite Heq0. apply elem_of_app. right. left. }
    split; [|split; [|split; [exact Hclean | split; reflexivity]]].
    + intros role [= <-]. exists r0.
      split; [assumption | split; [now apply auth_cond_true | reflexivity]].
    + intros _ _. split; [|split].
      * split; [eauto|]. intros _. exists r0.
        split; [assumption | now apply auth_cond_true].
      * split; [|discriminate]. intros H. exfalso.
        apply (H r0 Hin0). now apply auth_cond_true.
      * intros pre row post Heq Hpre Hrow.
        destruct (filter_first_app (Database.auth_cond username password)
                    pre post row) as [sel' Hsel'].
        -- intros x Hx. apply auth_cond_false. auto.
        -- now apply auth_cond_true.
        -- rewrite <- Heq, Hf in Hsel'. now inversion Hsel'.
Qed.

Lemma authenticate_user_exact_match_witness :
  snd (Database.authenticate_user "carol" "books" (Sample.world []))
  = Ok (Some "librarian")
  /\ snd (Database.authenticate_user "carol" "Books" (Sample.world []))
     = Ok None.
Proof.
  destruct (authenticate_user_exact_match "carol" "books" (Sample.world []))
    as (_ & Hclean & _).
  destruct (Hclean eq_refl eq_refl) as (_ & _ & Hfirst).
  destruct (authenticate_user_exact_match "carol" "Books" (Sample.world []))
    as (_ & Hclean' & _).
  destruct (Hclean' eq_refl eq_refl) as (_ & Hnone & _).
  split.
  - apply (Hfirst [Roles.mkRow "alice" "wonder" "student"]
             (Roles.mkRow "carol" "books" "librarian") []).
    + reflexivity.
    + intros x Hx. apply list_elem_of_In in Hx. simpl in Hx.
      destruct Hx as [<- | []]. intros [H _]. discriminate.
    + split; reflexivity.
  - apply Hnone. intros row Hrow. apply list_elem_of_In in Hrow.
    simpl in Hrow. destruct Hrow as [<- | [<- | []]]; intros [H1 H2];
      discriminate.
Defined.

(** C4 as stated fails for a pair that holds a NUL character: no row of
    the roles table matches it, and yet the call does not return absence;
    it returns nothing and raises. *)
Lemma authenticate_user_refuses_nul :
  let r := snd (Database.authenticate_user Sample.nul_name "wonder"
                  (Sample.world [])) in
  (forall row, row ∈ roles (Sample.world []) ->
               ~ credentials Sample.nul_name "wonder" row)
  /\ r = Raise (ValueError Database.MSG_NUL)
  /\ r <> Ok None.
Proof.
  cbv zeta. split; [|split].
  - intros row Hrow. apply list_elem_of_In in Hrow. simpl in Hrow.
    destruct Hrow as [<- | [<- | []]]; intros [H _]; vm_compute in H;
      discriminate.
  - vm_compute. reflexivity.
  - vm_compute. discriminate.
Qed.

Section Idempotence.

Lemma update_rows_twice cond set rows :
  (forall b, cond (set b) = cond b) -> (forall b, set (set b) = set b) ->
  Database.update_rows cond set (Database.update_rows cond set rows)
  = Database.update_rows cond set rows.
Proof.
  intros Hc Hs. unfold Database.update_rows.
  induction rows as [|b rows IH]; simpl; [reflexivity|].
  rewrite IH. f_equal.
  destruct (cond b) eqn:Hb.
  - now rewrite Hc, Hb, Hs.
  - now rewrite Hb.
Qed.

Lemma return_env_twice book_id e :
  return_env book_id (return_env book_id e) = return_env book_id e.
Proof.
  unfold return_env, with_rowcount, with_lib. simpl.
  rewrite update_rows_twice, count_rows_update; reflexivity.
Qed.

End Idempotence.

(** C10. [Database.return_book] is idempotent: a second call with the same
    id leaves the environment the first call left, and raises as little.
    A row that was available under the id and is borrowed and then
    returned has its triple null again, and is the row it was when its
    dates were null to begin with. *)
Theorem return_book_idempotent :
  (forall (book_id : Z) (e : Env),
     Database.return_book book_id (fst (Database.return_book book_id e))
     = Database.return_book book_id e)
  /\ (forall (book_id : Z) (username return_date : string) (e : Env)
             (i : nat) (b : Lib.row),
        lib e !! i = Some b -> available book_id b ->
        let e1 :=
          fst (Database.borrow_book book_id (Some username) return_date e) in
        let e2 := fst (Database.return_book book_id e1) in
        lib e2 !! i = Some (returned_row b)
        /\ (all_null b -> lib e2 !! i = Some b)).
Proof.
  split.
  - intros book_id e. rewrite !return_book_unfold. simpl.
    now rewrite return_env_twice.
  - intros book_id username return_date e i b Hi Hav e1 e2.
    assert (H2 : lib e2 !! i = Some (returned_row b)).
    { subst e2 e1. rewrite return_book_unfold, borrow_book_unfold.
      destruct Hav as [Hid Hfree].
      destruct (param_has_nul (Some username) || has_nul return_date); simpl.
      - rewrite update_rows_lookup, Hi. simpl.
        now rewrite (proj2 (return_cond_true book_id b) Hid).
      - rewrite !update_rows_lookup, Hi. simpl.
        rewrite (proj2 (borrow_cond_true book_id b) (conj Hid Hfree)).
        unfold Database.return_cond. simpl.
        now rewrite (proj2 (Z.eqb_eq _ _) Hid). }
    split; [assumption|].
    intros (H1 & H3 & H4). rewrite H2. f_equal.
    destruct b; simpl in *. unfold returned_row. simpl. congruence.
Qed.

Lemma return_book_idempotent_witness :
  lib (fst (Database.return_book 5
         (fst (Database.borrow_book 5 (Some "alice") "2025-01-01"
                 (Sample.world []))))) !! 0%nat
  = Some Sample.book5.
Proof.
  destruct return_book_idempotent as [_ H].
  destruct (H 5 "alice" "2025-01-01" (Sample.world []) 0%nat Sample.book5)
    as [_ Hsame].
  - reflexivity.
  - split; reflexivity.
  - apply Hsame. repeat split.
Defined.

(* ===================================================================== *)
(** ** The controller                                                     *)
(* ===================================================================== *)

Section Controller.

Variable py_int : string -> Z + string.

Implicit Types (app : LibraryApp.t) (e : Env).

Lemma print_run s e : print s e = (printed s e, Ok tt).
Proof. reflexivity. Qed.

Lemma input_run prompt line rest e :
  stdin e = line :: rest ->
  input prompt e = (prompted prompt rest e, Ok line).
Proof. intros H. unfold input. simpl. now rewrite H. Qed.

Lemma print_each_run lines e :
  LibraryApp.print_each lines e
  = (with_stdout (stdout e ++ map Print lines) e, Ok tt).
Proof.
  revert e. induction lines as [|l lines IH]; intros e; simpl.
  - rewrite app_nil_r. now destruct e.
  - unfold bind. rewrite print_run, IH. unfold printed. simpl.
    now rewrite <- app_assoc.
Qed.

Lemma show_books_run app e :
  LibraryApp.show_books (app, e) = ((app, shown e), Ok tt).
Proof.
  unfold LibraryApp.show_books, bind, LibraryApp.lift,
    Database.fetch_books, get, modify, ret. simpl.
  rewrite print_each_run. unfold shown. simpl.
  now rewrite <- app_assoc.
Qed.

Lemma delivered_notify message obs e e' :
  delivered message obs e e' ->
  LibraryApp.notify_each obs message e = (e', Ok tt).
Proof.
  induction 1 as [e | o rest e e1 e' Hu _ IH]; simpl; [reflexivity|].
  unfold bind. now rewrite Hu.
Qed.

(** The loop of [notify_observers]: either every subscriber completes, or
    the subscribers before the first one that does not complete have,
    and its outcome is the outcome of the loop. *)
Lemma notify_each_outcome obs message e :
  (exists e', delivered message obs e e'
              /\ LibraryApp.notify_each obs message e = (e', Ok tt))
  \/ (exists pre o post e1 e2 r,
        obs = (pre ++ o :: post)%list
        /\ delivered message pre e e1
        /\ update o message e1 = (e2, r) /\ r <> Ok tt
        /\ LibraryApp.notify_each obs message e = (e2, r)).
Proof.
  revert e. induction obs as [|o obs IH]; intros e.
  - left. exists e. split; [constructor | reflexivity].
  - destruct (update o message e) as [e1 r] eqn:Hu.
    assert (Hstop : r <> Ok tt ->
              LibraryApp.notify_each (o :: obs) message e = (e1, r)).
    { intros Hr. simpl. unfold bind. rewrite Hu.
      destruct r as [[]| |]; [congruence | reflexivity | reflexivity]. }
    destruct r as [[]|ex|].
    + destruct (IH e1) as [(e' & Hd & Hn)
                          | (pre & o' & post & e2 & e3 & r & -> & Hd & Hu'
                             & Hr & Hn)].
      * left. exists e'. split; [econstructor; eassumption|].
        simpl. unfold bind. now rewrite Hu.
      * right. exists (o :: pre), o', post, e2, e3, r.
        repeat split; try assumption.
        -- econstructor; eassumption.
        -- simpl. unfold bind. now rewrite Hu.
    + right. exists [], o, obs, e, e1, (Raise ex).
      repeat split; [constructor | assumption | discriminate
                    | apply Hstop; discriminate].
    + right. exists [], o, obs, e, e1, Diverge.
      repeat split; [constructor | assumption | discriminate
                    | apply Hstop; discriminate].
Qed.

Lemma after_notify_ok app e : after_notify app (e, Ok tt) = ((app, e), Ok tt).
Proof. reflexivity. Qed.

(** The body of a [try] whose last statement is the notification. *)
Lemma try_notify app e message :
  try_except_ValueError
    (LibraryApp.notify_observers message)
    (fun msg => LibraryApp.lift (print msg)) (app, e)
  = after_notify app
      (LibraryApp.notify_each (LibraryApp.observers app) message e).
Proof.
  unfold try_except_ValueError, LibraryApp.notify_observers, bind,
    LibraryApp.self, LibraryApp.lift. simpl.
  destruct (LibraryApp.notify_each _ _ _) as [e' [[]|[]|]]; reflexivity.
Qed.

Lemma int_run line z (s : LibraryApp.State) :
  py_int line = inl z -> LibraryApp.int py_int line s = (s, Ok z).
Proof. intros H. unfold LibraryApp.int. now rewrite H. Qed.

Lemma bind_ok {S A B} (c : M S A) (k : A -> M S B) (s s' : S) (a : A) :
  c s = (s', Ok a) -> bind c k s = k a s'.
Proof. intros H. unfold bind. now rewrite H. Qed.

Lemma lift_run {A} (c : M Env A) app e e' (r : result A) :
  c e = (e', r) -> LibraryApp.lift c (app, e) = ((app, e'), r).
Proof. intros H. unfold LibraryApp.lift. simpl. now rewrite H. Qed.

Lemma self_run app e : LibraryApp.self (app, e) = ((app, e), Ok app).
Proof. reflexivity. Qed.

Lemma bind_raise {S A B} (c : M S A) (k : A -> M S B) (s s' : S) (x : exn) :
  c s = (s', Raise x) -> bind c k s = (s', Raise x).
Proof. intros H. unfold bind. now rewrite H. Qed.

(** The borrow action once the gate is passed and the prompts are
    answered: the gateway is called, and its outcome decides. *)
Lemma borrow_book_call app e line return_date rest book_id :
  opt_in (LibraryApp.role app) ["student"; "librarian"] = true ->
  stdin e = line :: return_date :: rest ->
  py_int line = inl book_id ->
  LibraryApp.borrow_book py_int (app, e)
  = match Database.borrow_book book_id (LibraryApp.username app)
            return_date (asked_borrow return_date rest e)
    with
    | (e1, Ok _) =>
        after_notify app
          (LibraryApp.notify_each (LibraryApp.observers app)
             (LibraryApp.NOTE_BORROWED book_id (LibraryApp.username app))
             (printed LibraryApp.MSG_BORROWED e1))
    | (e1, Raise (ValueError msg)) => ((app, printed msg e1), Ok tt)
    | (e1, r) => ((app, e1), r)
    end.
Proof.
  intros Hrole Hin Hint. unfold LibraryApp.borrow_book.
  rewrite (bind_ok _ _ _ _ _ (self_run app e)), Hrole. cbn [negb].
  rewrite (bind_ok _ _ _ _ _ (show_books_run app e)).
  rewrite (bind_ok _ _ _ _ _
             (lift_run _ app _ _ _
                (input_run LibraryApp.PROMPT_BORROW_ID line
                   (return_date :: rest) (shown e) Hin))).
  rewrite (bind_ok _ _ _ _ _ (int_run _ _ _ Hint)).
  rewrite (bind_ok _ _ _ _ _
             (lift_run _ app _ _ _
                (input_run LibraryApp.PROMPT_RETURN_DATE return_date rest
                   (prompted LibraryApp.PROMPT_BORROW_ID
                      (return_date :: rest) (shown e)) eq_refl))).
  fold (asked_borrow return_date rest e).
  unfold try_except_ValueError at 1.
  destruct (Database.borrow_book book_id (LibraryApp.username app)
              return_date (asked_borrow return_date rest e))
    as [e1 [[]|ex|]] eqn:Hg.
  - rewrite (bind_ok _ _ _ _ _ (lift_run _ app _ _ _ Hg)).
    rewrite (bind_ok _ _ _ _ _ (lift_run _ app _ _ _ (print_run _ _))).
    apply (try_notify app).
  - rewrite (bind_raise _ _ _ _ _ (lift_run _ app _ _ _ Hg)).
    now destruct ex.
  - unfold bind at 1. now rewrite (lift_run _ app _ _ _ Hg).
Qed.

Lemma borrow_book_run app e line return_date rest book_id :
  opt_in (LibraryApp.role app) ["student"; "librarian"] = true ->
  stdin e = line :: return_date :: rest ->
  py_int line = inl book_id ->
  param_has_nul (LibraryApp.username app) || has_nul return_date = false ->
  LibraryApp.borrow_book py_int (app, e)
  = let e0 := asked_borrow return_date rest e in
    let e1 := borrow_env book_id (LibraryApp.username app) return_date e0 in
    if Database.count_rows (Database.borrow_cond book_id) (lib e) =? 0
    then ((app, printed Database.MSG_UNAVAILABLE e1), Ok tt)
    else after_notify app
           (LibraryApp.notify_each (LibraryApp.observers app)
              (LibraryApp.NOTE_BORROWED book_id (LibraryApp.username app))
              (printed LibraryApp.MSG_BORROWED e1)).
Proof.
  intros Hrole Hin Hint Hclean.
  rewrite (borrow_book_call app e line return_date rest book_id
             Hrole Hin Hint).
  rewrite (borrow_book_clean _ _ _ _ Hclean). cbv zeta.
  change (lib (asked_borrow return_date rest e)) with (lib e).
  now destruct (Database.count_rows (Database.borrow_cond book_id) (lib e)
                =? 0).
Qed.

(** ... and when a text typed or stored holds a NUL character: the
    statement's own [ValueError] is caught and printed, nothing else. *)
Lemma borrow_book_run_nul app e line return_date rest book_id :
  opt_in (LibraryApp.role app) ["student"; "librarian"] = true ->
  stdin e = line :: return_date :: rest ->
  py_int line = inl book_id ->
  param_has_nul (LibraryApp.username app) || has_nul return_date = true ->
  LibraryApp.borrow_book py_int (app, e)
  = ((app, printed Database.MSG_NUL
             (with_ticks (S (ticks e)) (asked_borrow return_date rest e))),
     Ok tt).
Proof.
  intros Hrole Hin Hint Hnul.
  rewrite (borrow_book_call app e line return_date rest book_id
             Hrole Hin Hint).
  now rewrite (borrow_book_nul _ _ _ _ Hnul).
Qed.

Lemma return_book_run app e line rest book_id :
  opt_eqb (LibraryApp.role app) "librarian" = true ->
  stdin e = line :: rest ->
  py_int line = inl book_id ->
  LibraryApp.return_book py_int (app, e)
  = after_notify app
      (LibraryApp.notify_each (LibraryApp.observers app)
         (LibraryApp.NOTE_RETURNED book_id)
         (printed LibraryApp.MSG_RETURNED
            (return_env book_id (asked_return rest e)))).
Proof.
  intros Hrole Hin Hint. unfold LibraryApp.return_book.
  rewrite (bind_ok _ _ _ _ _ (self_run app e)), Hrole. cbn [negb].
  rewrite (bind_ok _ _ _ _ _ (show_books_run app e)).
  rewrite (bind_ok _ _ _ _ _
             (lift_run _ app _ _ _
                (input_run LibraryApp.PROMPT_RETURN_ID line rest
                   (shown e) Hin))).
  rewrite (bind_ok _ _ _ _ _ (int_run _ _ _ Hint)).
  fold (asked_return rest e).
  unfold try_except_ValueError at 1.
  rewrite (bind_ok _ _ _ _ _
             (lift_run _ app _ _ _ (return_book_unfold book_id _))).
  rewrite (bind_ok _ _ _ _ _ (lift_run _ app _ _ _ (print_run _ _))).
  apply (try_notify app).
Qed.




(** [login] once two lines are typed: the store is asked, and its answer
    decides. *)
Lemma login_call app e u p rest :
  stdin e = u :: p :: rest ->
  LibraryApp.login (app, e)
  = match Database.authenticate_user u p
            (prompted LibraryApp.PROMPT_PASSWORD rest
               (prompted LibraryApp.PROMPT_LOGIN (p :: rest) e))
    with
    | (e3, Ok r) =>
        if truthy r
        then ((LibraryApp.mk r (Some u) (LibraryApp.observers app),
               printed (LibraryApp.MSG_WELCOME (Some u) r) e3), Ok tt)
        else ((LibraryApp.mk r (Some u) (LibraryApp.observers app),
               printed LibraryApp.MSG_BAD_LOGIN e3), Raise SystemExit)
    | (e3, Raise ex) =>
        ((LibraryApp.mk (LibraryApp.role app) (Some u)
            (LibraryApp.observers app), e3), Raise ex)
    | (e3, Diverge) =>
        ((LibraryApp.mk (LibraryApp.role app) (Some u)
            (LibraryApp.observers app), e3), Diverge)
    end.
Proof.
  intros Hin. unfold LibraryApp.login.
  rewrite (bind_ok _ _ _ _ _
             (lift_run _ app _ _ _
                (input_run LibraryApp.PROMPT_LOGIN u (p :: rest) e Hin))).
  unfold LibraryApp.set_username at 1, modify at 1, bind at 1.
  cbn [fst snd]. unfold getpass.
  rewrite (bind_ok _ _ _ _ _
             (lift_run _ _ _ _ _
                (input_run LibraryApp.PROMPT_PASSWORD p rest
                   (prompted LibraryApp.PROMPT_LOGIN (p :: rest) e)
                   eq_refl))).
  destruct (Database.authenticate_user u p
              (prompted LibraryApp.PROMPT_PASSWORD rest
                 (prompted LibraryApp.PROMPT_LOGIN (p :: rest) e)))
    as [e3 [r|ex|]] eqn:Hcall.
  - rewrite (bind_ok _ _ _ _ _ (lift_run _ _ _ _ _ Hcall)).
    unfold LibraryApp.set_role at 1, modify at 1, bind at 1.
    cbn [fst snd LibraryApp.role LibraryApp.username LibraryApp.observers].
    destruct (truthy r).
    + now rewrite (lift_run _ _ _ _ _ (print_run _ _)).
    + now rewrite (bind_ok _ _ _ _ _ (lift_run _ _ _ _ _ (print_run _ _))).
  - now rewrite (bind_raise _ _ _ _ _ (lift_run _ _ _ _ _ Hcall)).
  - unfold bind at 1. now rewrite (lift_run _ _ _ _ _ Hcall).
Qed.

(** The head of a turn: the menu is printed, then the choice is read. *)
Lemma menu_turn_head app e :
  LibraryApp.menu_turn py_int (app, e)
  = bind (LibraryApp.lift (input LibraryApp.PROMPT_CHOICE))
      (fun choice =>
         if String.eqb choice "1"
         then bind LibraryApp.show_books (fun _ => ret true)
         else if String.eqb choice "2"
                 && opt_in (LibraryApp.role app) ["student"; "librarian"]
         then bind (LibraryApp.borrow_book py_int) (fun _ => ret true)
         else if String.eqb choice "3"
                 && opt_eqb (LibraryApp.role app) "librarian"
         then bind (LibraryApp.return_book py_int) (fun _ => ret true)
         else if String.eqb choice "0" then ret false
         else bind (LibraryApp.lift (print LibraryApp.MSG_BAD_CHOICE))
                (fun _ => ret true))
      (app, menu_shown app e).
Proof.
  unfold LibraryApp.menu_turn.
  rewrite (bind_ok _ _ _ _ _ (self_run app e)).
  rewrite (bind_ok _ _ _ _ _ (lift_run _ app _ _ _ (print_run _ _))).
  unfold menu_shown, menu_lines.
  destruct (opt_in (LibraryApp.role app) ["student"; "librarian"]);
    destruct (opt_eqb (LibraryApp.role app) "librarian");
    unfold LibraryApp.when; unfold bind at 1 2 3;
    unfold LibraryApp.lift at 1 2 3, print, modify, ret, printed;
    cbn [fst snd stdout with_stdout]; rewrite <- !app_assoc;
    reflexivity.
Qed.

Lemma menu_turn_refuses_return app e rest :
  opt_eqb (LibraryApp.role app) "librarian" = false ->
  stdin e = "3" :: rest ->
  LibraryApp.menu_turn py_int (app, e)
  = ((app, printed LibraryApp.MSG_BAD_CHOICE
             (prompted LibraryApp.PROMPT_CHOICE rest (menu_shown app e))),
     Ok true).
Proof.
  intros Hrole Hin. rewrite menu_turn_head.
  rewrite (bind_ok _ _ _ _ _
             (lift_run _ app _ _ _
                (input_run LibraryApp.PROMPT_CHOICE "3" rest
                   (menu_shown app e) Hin))).
  rewrite Hrole.
  change ("3" =? "1")%string with false.
  change ("3" =? "2")%string with false.
  change ("3" =? "3")%string with true.
  change ("3" =? "0")%string with false.
  cbn [andb].
  rewrite (bind_ok _ _ _ _ _ (lift_run _ app _ _ _ (print_run _ _))).
  reflexivity.
Qed.

Lemma return_book_refused app e :
  opt_eqb (LibraryApp.role app) "librarian" = false ->
  LibraryApp.return_book py_int (app, e)
  = ((app, printed LibraryApp.MSG_NO_RETURN_ACCESS e), Ok tt).
Proof.
  intros Hrole. unfold LibraryApp.return_book.
  rewrite (bind_ok _ _ _ _ _ (self_run app e)), Hrole.
  reflexivity.
Qed.

Lemma opt_eqb_false (o : option string) (s : string) :
  o <> Some s -> opt_eqb o s = false.
Proof.
  destruct o as [s'|]; simpl; [|reflexivity].
  intros H. apply String.eqb_neq. congruence.
Qed.

End Controller.

(* ===================================================================== *)
(** ** The menu loop comes to an end                                      *)
(* ===================================================================== *)

Section Termination.

Variable py_int : string -> Z + string.

Implicit Types (app : LibraryApp.t) (e : Env).

Lemma input_eof prompt e :
  stdin e = [] ->
  input prompt e
  = (with_stdout (stdout e ++ [Prompt prompt]) e, Raise EOFError).
Proof. intros H. unfold input. simpl. now rewrite H. Qed.

Lemma int_raise line msg (s : LibraryApp.State) :
  py_int line = inr msg ->
  LibraryApp.int py_int line s = (s, Raise (ValueError msg)).
Proof. intros H. unfold LibraryApp.int. now rewrite H. Qed.

Lemma notify_each_tame obs message e :
  Forall tame obs ->
  snd (LibraryApp.notify_each obs message e) <> Diverge
  /\ (length (stdin (fst (LibraryApp.notify_each obs message e)))
      <= length (stdin e))%nat.
Proof.
  intros Hobs. revert e.
  induction Hobs as [|o obs Ho _ IH]; intros e; simpl.
  - split; [discriminate | lia].
  - unfold bind. destruct (Ho message e) as [Hend Hin].
    destruct (update o message e) as [e1 [[]|ex|]]; simpl in *.
    + destruct (IH e1) as [Hend' Hin']. split; [assumption | lia].
    + split; [discriminate | assumption].
    + contradiction.
Qed.

Lemma after_notify_settles app e0 (n : Env * result unit) :
  snd n <> Diverge ->
  (length (stdin (fst n)) <= length (stdin e0))%nat ->
  snd (after_notify app n) <> Diverge
  /\ fst (fst (after_notify app n)) = app
  /\ (length (stdin (snd (fst (after_notify app n))))
      <= length (stdin e0))%nat.
Proof.
  destruct n as [e' [[]|[]|]]; simpl; intros Hend Hin;
    repeat split; try discriminate; assumption.
Qed.

Lemma borrow_book_settles app e :
  Forall tame (LibraryApp.observers app) ->
  settles (LibraryApp.borrow_book py_int) app e.
Proof.
  intros Hobs. unfold settles.
  destruct (opt_in (LibraryApp.role app) ["student"; "librarian"])
    eqn:Hrole.
  2:{ unfold LibraryApp.borrow_book.
      rewrite (bind_ok _ _ _ _ _ (self_run app e)), Hrole. simpl.
      repeat split; [discriminate | lia]. }
  destruct (stdin e) as [|line rest] eqn:Hin.
  { unfold LibraryApp.borrow_book.
    rewrite (bind_ok _ _ _ _ _ (self_run app e)), Hrole. cbn [negb].
    rewrite (bind_ok _ _ _ _ _ (show_books_run app e)).
    rewrite (bind_raise _ _ _ _ _
               (lift_run _ app _ _ _
                  (input_eof LibraryApp.PROMPT_BORROW_ID (shown e) Hin))).
    simpl. rewrite Hin. repeat split; [discriminate | simpl; lia]. }
  destruct (py_int line) as [book_id | msg] eqn:Hint.
  2:{ unfold LibraryApp.borrow_book.
      rewrite (bind_ok _ _ _ _ _ (self_run app e)), Hrole. cbn [negb].
      rewrite (bind_ok _ _ _ _ _ (show_books_run app e)).
      rewrite (bind_ok _ _ _ _ _
                 (lift_run _ app _ _ _
                    (input_run LibraryApp.PROMPT_BORROW_ID line rest
                       (shown e) Hin))).
      rewrite (bind_raise _ _ _ _ _ (int_raise _ _ _ Hint)). simpl.
      repeat split; [discriminate | lia]. }
  destruct rest as [|return_date rest].
  { unfold LibraryApp.borrow_book.
    rewrite (bind_ok _ _ _ _ _ (self_run app e)), Hrole. cbn [negb].
    rewrite (bind_ok _ _ _ _ _ (show_books_run app e)).
    rewrite (bind_ok _ _ _ _ _
               (lift_run _ app _ _ _
                  (input_run LibraryApp.PROMPT_BORROW_ID line []
                     (shown e) Hin))).
    rewrite (bind_ok _ _ _ _ _ (int_run py_int _ _ _ Hint)).
    rewrite (bind_raise _ _ _ _ _
               (lift_run _ app _ _ _
                  (input_eof LibraryApp.PROMPT_RETURN_DATE
                     (prompted LibraryApp.PROMPT_BORROW_ID [] (shown e))
                     eq_refl))).
    simpl. repeat split; [discriminate | lia]. }
  rewrite (borrow_book_call py_int app e line return_date rest book_id
             Hrole Hin Hint).
  rewrite borrow_book_unfold.
  destruct (param_has_nul (LibraryApp.username app) || has_nul return_date).
  { simpl. repeat split; [discriminate | lia]. }
  change (lib (asked_borrow return_date rest e)) with (lib e).
  destruct (Database.count_rows (Database.borrow_cond book_id) (lib e) =? 0).
  - simpl. repeat split; [discriminate | lia].
  - rewrite <- Hin.
    match goal with
    | |- context [LibraryApp.notify_each ?o ?m ?x] =>
        destruct (notify_each_tame o m x Hobs) as [Hend Hlen];
        apply after_notify_settles; [exact Hend|]
    end.
    simpl in Hlen. rewrite Hin. simpl. lia.
Qed.

Lemma return_book_settles app e :
  Forall tame (LibraryApp.observers app) ->
  settles (LibraryApp.return_book py_int) app e.
Proof.
  intros Hobs. unfold settles.
  destruct (opt_eqb (LibraryApp.role app) "librarian") eqn:Hrole.
  2:{ rewrite (return_book_refused py_int app e Hrole). simpl.
      repeat split; [discriminate | lia]. }
  destruct (stdin e) as [|line rest] eqn:Hin.
  { unfold LibraryApp.return_book.
    rewrite (bind_ok _ _ _ _ _ (self_run app e)), Hrole. cbn [negb].
    rewrite (bind_ok _ _ _ _ _ (show_books_run app e)).
    rewrite (bind_raise _ _ _ _ _
               (lift_run _ app _ _ _
                  (input_eof LibraryApp.PROMPT_RETURN_ID (shown e) Hin))).
    simpl. rewrite Hin. repeat split; [discriminate | simpl; lia]. }
  destruct (py_int line) as [book_id | msg] eqn:Hint.
  2:{ unfold LibraryApp.return_book.
      rewrite (bind_ok _ _ _ _ _ (self_run app e)), Hrole. cbn [negb].
      rewrite (bind_ok _ _ _ _ _ (show_books_run app e)).
      rewrite (bind_ok _ _ _ _ _
                 (lift_run _ app _ _ _
                    (input_run LibraryApp.PROMPT_RETURN_ID line rest
                       (shown e) Hin))).
      rewrite (bind_raise _ _ _ _ _ (int_raise _ _ _ Hint)). simpl.
      repeat split; [discriminate | lia]. }
  rewrite (return_book_run py_int app e line rest book_id Hrole Hin Hint).
  rewrite <- Hin.
  match goal with
  | |- context [LibraryApp.notify_each ?o ?m ?x] =>
      destruct (notify_each_tame o m x Hobs) as [Hend Hlen];
      apply after_notify_settles; [exact Hend|]
  end.
  simpl in Hlen. rewrite Hin. simpl. lia.
Qed.

Lemma then_true_settles (c : M LibraryApp.State unit) app e (n : nat) :
  settles c app e -> (length (stdin e) < n)%nat ->
  let r := bind c (fun _ => ret true) (app, e) in
  snd r <> Diverge
  /\ (snd r = Ok true ->
      fst (fst r) = app /\ (length (stdin (snd (fst r))) < n)%nat).
Proof.
  unfold settles, bind, ret.
  destruct (c (app, e)) as [[app' e'] [[]|ex|]]; simpl;
    intros (Hend & Happ & Hlen) Hlt.
  - split; [discriminate|]. intros _. split; [assumption | lia].
  - split; discriminate.
  - contradiction.
Qed.

(** A turn of the menu comes to an end, and when the loop goes on a line
    has been read and the application object is the same. *)
Lemma menu_turn_progress app e :
  Forall tame (LibraryApp.observers app) ->
  let r := LibraryApp.menu_turn py_int (app, e) in
  snd r <> Diverge
  /\ (snd r = Ok true ->
      fst (fst r) = app
      /\ (length (stdin (snd (fst r))) < length (stdin e))%nat).
Proof.
  intros Hobs. cbv zeta. rewrite menu_turn_head.
  destruct (stdin e) as [|choice rest] eqn:Hin.
  { rewrite (bind_raise _ _ _ _ _
               (lift_run _ app _ _ _
                  (input_eof LibraryApp.PROMPT_CHOICE (menu_shown app e)
                     Hin))).
    simpl. split; discriminate. }
  rewrite (bind_ok _ _ _ _ _
             (lift_run _ app _ _ _
                (input_run LibraryApp.PROMPT_CHOICE choice rest
                   (menu_shown app e) Hin))).
  set (e1 := prompted LibraryApp.PROMPT_CHOICE rest (menu_shown app e)).
  assert (Hlt : (length (stdin e1) < S (length rest))%nat)
    by (simpl; lia).
  cbn [length].
  destruct (choice =? "1")%string.
  { rewrite (bind_ok _ _ _ _ _ (show_books_run app e1)). simpl.
    split; [discriminate|]. intros _. split; [reflexivity | lia]. }
  destruct ((choice =? "2")%string
            && opt_in (LibraryApp.role app) ["student"; "librarian"]).
  { exact (then_true_settles (LibraryApp.borrow_book py_int) app e1 _
             (borrow_book_settles app e1 Hobs) Hlt). }
  destruct ((choice =? "3")%string
            && opt_eqb (LibraryApp.role app) "librarian").
  { exact (then_true_settles (LibraryApp.return_book py_int) app e1 _
             (return_book_settles app e1 Hobs) Hlt). }
  destruct (choice =? "0")%string.
  { simpl. split; discriminate. }
  rewrite (bind_ok _ _ _ _ _ (lift_run _ app _ _ _ (print_run _ _))).
  simpl. split; [discriminate|]. intros _. split; [reflexivity | lia].
Qed.

(** The loop of [run] ends once its fuel exceeds the lines left to read,
    when the subscribers are tame. *)
Lemma menu_loop_ends (fuel : nat) app e :
  Forall tame (LibraryApp.observers app) ->
  (length (stdin e) < fuel)%nat ->
  snd (LibraryApp.menu_loop py_int fuel (app, e)) <> Diverge.
Proof.
  intros Hobs. revert e.
  induction fuel as [|fuel IH]; intros e Hfuel; [lia|].
  simpl. unfold bind at 1.
  pose proof (menu_turn_progress app e Hobs) as Hturn. cbv zeta in Hturn.
  destruct (LibraryApp.menu_turn py_int (app, e))
    as [[app' e'] [[|]|ex|]]; simpl in *.
  - destruct Hturn as [_ Hgo]. destruct (Hgo eq_refl) as [-> Hlt].
    apply IH. lia.
  - discriminate.
  - discriminate.
  - now destruct Hturn.
Qed.

Lemma login_ends app e (s : LibraryApp.State) (r : result unit) :
  LibraryApp.login (app, e) = (s, r) ->
  r <> Diverge
  /\ LibraryApp.observers (fst s) = LibraryApp.observers app
  /\ (length (stdin (snd s)) <= length (stdin e))%nat.
Proof.
  destruct (stdin e) as [|u [|p rest]] eqn:Hin.
  - unfold LibraryApp.login.
    rewrite (bind_raise _ _ _ _ _
               (lift_run _ app _ _ _
                  (input_eof LibraryApp.PROMPT_LOGIN e Hin))).
    intros [= <- <-]. simpl. rewrite Hin.
    repeat split; [discriminate | simpl; lia].
  - unfold LibraryApp.login.
    rewrite (bind_ok _ _ _ _ _
               (lift_run _ app _ _ _
                  (input_run LibraryApp.PROMPT_LOGIN u [] e Hin))).
    unfold LibraryApp.set_username at 1, modify at 1, bind at 1.
    cbn [fst snd]. unfold getpass.
    rewrite (bind_raise _ _ _ _ _
               (lift_run _ _ _ _ _
                  (input_eof LibraryApp.PROMPT_PASSWORD
                     (prompted LibraryApp.PROMPT_LOGIN [] e) eq_refl))).
    intros [= <- <-]. simpl. repeat split; [discriminate | lia].
  - rewrite (login_call app e u p rest Hin), authenticate_user_unfold.
    destruct (has_nul u || has_nul p).
    { intros [= <- <-]. simpl. repeat split; [discriminate | lia]. }
    match goal with |- context [truthy ?x] => destruct (truthy x) end;
      intros [= <- <-]; simpl; repeat split; try discriminate; lia.
Qed.

(** [run] comes to an end on every finite input once the fuel of its
    loop exceeds the lines typed, when the subscribers are tame. *)
Lemma run_ends (fuel : nat) app e :
  Forall tame (LibraryApp.observers app) ->
  (length (stdin e) < fuel)%nat ->
  snd (LibraryApp.run py_int fuel (app, e)) <> Diverge.
Proof.
  intros Hobs Hfuel. unfold LibraryApp.run, bind.
  pose proof (login_ends app e) as Hlogin.
  destruct (LibraryApp.login (app, e)) as [[app' e'] [[]|ex|]];
    destruct (Hlogin _ _ eq_refl) as (Hend & Hsame & Hlen); simpl in *.
  - apply menu_loop_ends; [now rewrite Hsame | lia].
  - discriminate.
  - contradiction.
Qed.

Lemma BaseObserver_tame : tame BaseObserver.
Proof. intros message e. simpl. split; [discriminate | lia]. Qed.

Lemma Logger_tame : tame Logger.
Proof.
  intros message e. unfold Logger, update, bind, now, get, modify, raise.
  simpl. destruct (log_fault e _); simpl; split; try discriminate; lia.
Qed.

Lemma main_ends (fuel : nat) e :
  (length (stdin e) < fuel)%nat ->
  snd (LibraryApp.main py_int fuel e) <> Diverge.
Proof.
  intros Hfuel. unfold LibraryApp.main. apply run_ends; [|assumption].
  simpl. constructor; [exact Logger_tame | constructor].
Qed.

End Termination.

(* ===================================================================== *)
(** ** The session                                                        *)
(* ===================================================================== *)

Section Unavailable.

Lemma borrowed_not_available book_id (rows : list Lib.row) :
  (forall b, b ∈ rows -> Lib.id b = book_id -> Lib.borrowed_by b <> None) ->
  forall b, b ∈ rows -> ~ available book_id b.
Proof. intros H b Hb [Hid Hn]. now apply (H b). Qed.

Lemma count_rows_unavailable book_id (rows : list Lib.row) :
  (forall b, b ∈ rows -> ~ available book_id b) ->
  Database.count_rows (Database.borrow_cond book_id) rows = 0.
Proof.
  intros H. apply count_rows_zero. intros b Hb.
  apply borrow_cond_false. auto.
Qed.

Lemma borrow_env_keeps_lib book_id username return_date e :
  (forall b, b ∈ lib e -> ~ available book_id b) ->
  lib (borrow_env book_id username return_date e) = lib e.
Proof.
  intros H. unfold borrow_env. simpl.
  apply update_rows_fixed. intros b Hb Hc.
  apply borrow_cond_true in Hc. now destruct (H b Hb).
Qed.

(** Once a borrow has run, no row is available under its id. *)
Lemma borrow_env_taken book_id (username : string) return_date e :
  forall b, b ∈ lib (borrow_env book_id (Some username) return_date e) ->
            ~ available book_id b.
Proof.
  intros b' Hb'. unfold borrow_env in Hb'. simpl in Hb'.
  unfold Database.update_rows in Hb'.
  apply list_elem_of_In, in_map_iff in Hb'.
  destruct Hb' as (b & <- & _).
  destruct (Database.borrow_cond book_id b) eqn:Hc.
  - intros [_ Hn]. discriminate.
  - now apply borrow_cond_false.
Qed.

Lemma unique_id (rows : list Lib.row) (b b' : Lib.row) :
  NoDup (map Lib.id rows) -> b ∈ rows -> b' ∈ rows ->
  Lib.id b = Lib.id b' -> b = b'.
Proof.
  induction rows as [|x rows IH]; intros Hnd Hb Hb' Hid.
  - inversion Hb.
  - apply NoDup_cons in Hnd. destruct Hnd as [Hx Hnd].
    apply elem_of_cons in Hb. apply elem_of_cons in Hb'.
    destruct Hb as [-> | Hb], Hb' as [-> | Hb'].
    + reflexivity.
    + exfalso. apply Hx. rewrite Hid.
      apply list_elem_of_In, in_map, list_elem_of_In, Hb'.
    + exfalso. apply Hx. rewrite <- Hid.
      apply list_elem_of_In, in_map, list_elem_of_In, Hb.
    + now apply IH.
Qed.

End Unavailable.

(** C5, as the code has it.  A borrow of an id whose rows all have a
    borrower is refused with a [ValueError] and leaves both tables as they
    were: the "book unavailable" error when neither text holds a NUL
    character, the statement's own error when one does.  So it is for the
    id of any borrowed book when ids are a key, and so a second borrow of
    the id just borrowed by a borrow that was sent (its texts free of NUL)
    is refused and keeps what the first one wrote.  The controller catches
    the error: it prints its message and returns to the menu with the
    application object, the tables and the log untouched. *)
Theorem borrow_of_borrowed_book_fails (py_int : string -> Z + string) :
  (forall (book_id : Z) (username return_date : string) (e : Env),
     (forall b, b ∈ lib e -> Lib.id b = book_id ->
                Lib.borrowed_by b <> None) ->
     let g := Database.borrow_book book_id (Some username) return_date e in
     snd g = Raise (ValueError (borrow_refusal (Some username) return_date))
     /\ (has_nul username = false -> has_nul return_date = false ->
         snd g = Raise (ValueError Database.MSG_UNAVAILABLE))
     /\ (has_nul username = true \/ has_nul return_date = true ->
         snd g = Raise (ValueError Database.MSG_NUL))
     /\ lib (fst g) = lib e /\ roles (fst g) = roles e)
  /\ (forall (b : Lib.row) (username return_date : string) (e : Env),
        NoDup (map Lib.id (lib e)) ->
        b ∈ lib e -> Lib.borrowed_by b <> None ->
        let g := Database.borrow_book (Lib.id b) (Some username)
                   return_date e in
        snd g = Raise (ValueError (borrow_refusal (Some username) return_date))
        /\ lib (fst g) = lib e)
  /\ (forall (book_id : Z) (u1 d1 u2 d2 : string) (e : Env),
        has_nul u1 = false -> has_nul d1 = false ->
        let e1 := fst (Database.borrow_book book_id (Some u1) d1 e) in
        let g := Database.borrow_book book_id (Some u2) d2 e1 in
        snd g = Raise (ValueError (borrow_refusal (Some u2) d2))
        /\ lib (fst g) = lib e1)
  /\ (forall (app : LibraryApp.t) (e : Env) (line return_date : string)
             (rest : list string) (book_id : Z),
        opt_in (LibraryApp.role app) ["student"; "librarian"] = true ->
        stdin e = line :: return_date :: rest ->
        py_int line = inl book_id ->
        (forall b, b ∈ lib e -> Lib.id b = book_id ->
                   Lib.borrowed_by b <> None) ->
        let s := LibraryApp.borrow_book py_int (app, e) in
        snd s = Ok tt /\ fst (fst s) = app
        /\ lib (snd (fst s)) = lib e /\ roles (snd (fst s)) = roles e
        /\ log_file (snd (fst s)) = log_file e
        /\ stdout (snd (fst s))
           = (stdout (asked_borrow return_date rest e)
              ++ [Print (borrow_refusal (LibraryApp.username app)
                           return_date)])%list).
Proof.
  split; [|split; [|split]].
  - intros book_id username return_date e H g. subst g.
    pose proof (borrowed_not_available _ _ H) as H'. clear H. rename H' into H.
    rewrite (borrow_refused _ (Some username) return_date e H).
    unfold borrow_refusal. cbn [param_has_nul].
    split; [reflexivity|]. split; [|split; [|split]].
    + intros -> ->. reflexivity.
    + intros [-> | ->]; [reflexivity|].
      now rewrite orb_true_r.
    + now apply borrow_raise_keeps_lib.
    + apply borrow_keeps_roles.
  - intros b username return_date e Hnd Hb Hout g. subst g.
    assert (H : forall b', b' ∈ lib e -> ~ available (Lib.id b) b').
    { intros b' Hb' [Hid Hn].
      rewrite (unique_id (lib e) b' b Hnd Hb' Hb Hid) in Hn. contradiction. }
    split; [now apply borrow_refused|].
    now apply borrow_raise_keeps_lib.
  - intros book_id u1 d1 u2 d2 e Hu1 Hd1 e1 g. subst g e1.
    rewrite (borrow_book_clean book_id (Some u1) d1 e
               (clean_strings u1 d1 Hu1 Hd1)).
    cbn [fst].
    pose proof (borrow_env_taken book_id u1 d1 e) as H.
    split; [now apply borrow_refused|].
    now apply borrow_raise_keeps_lib.
  - intros app e line return_date rest book_id Hrole Hin Hint H s. subst s.
    pose proof (borrowed_not_available _ _ H) as H'. clear H. rename H' into H.
    rewrite (borrow_book_call py_int app e line return_date rest book_id
               Hrole Hin Hint).
    assert (H1 : forall b, b ∈ lib (asked_borrow return_date rest e) ->
                           ~ available book_id b) by exact H.
    pose proof (borrow_refused book_id (LibraryApp.username app) return_date
                  (asked_borrow return_date rest e) H1) as Hr.
    pose proof (borrow_raise_keeps_lib book_id (LibraryApp.username app)
                  return_date (asked_borrow return_date rest e) H1) as Hl.
    pose proof (borrow_keeps_roles book_id (LibraryApp.username app)
                  return_date (asked_borrow return_date rest e)) as Hro.
    assert (Hlog : log_file
                     (fst (Database.borrow_book book_id
                             (LibraryApp.username app) return_date
                             (asked_borrow return_date rest e)))
                   = log_file e
                   /\ stdout
                        (fst (Database.borrow_book book_id
                                (LibraryApp.username app) return_date
                                (asked_borrow return_date rest e)))
                      = stdout (asked_borrow return_date rest e)).
    { rewrite borrow_book_unfold.
      now destruct (param_has_nul (LibraryApp.username app)
                    || has_nul return_date). }
    destruct (Database.borrow_book book_id (LibraryApp.username app)
                return_date (asked_borrow return_date rest e)) as [e1 r].
    cbn [fst snd] in Hr, Hl, Hro, Hlog. subst r. destruct Hlog as [Hlog Hout].
    cbn [fst snd]. unfold printed at 1 2 3 4. cbn [lib roles log_file stdout].
    rewrite Hout. now repeat split.
Qed.

Lemma borrow_of_borrowed_book_fails_witness :
  snd (Database.borrow_book 6 (Some "alice") "2025-01-01" (Sample.world []))
  = Raise (ValueError Database.MSG_UNAVAILABLE)
  /\ lib (fst (Database.borrow_book 6 (Some "alice") "2025-01-01"
                 (Sample.world []))) = lib (Sample.world [])
  /\ snd (Database.borrow_book 5 (Some "bob") "2025-02-02"
            (fst (Database.borrow_book 5 (Some "alice") "2025-01-01"
                    (Sample.world []))))
     = Raise (ValueError Database.MSG_UNAVAILABLE)
  /\ lib (snd (fst (LibraryApp.borrow_book Sample.dec_int
                      (Sample.student [Logger],
                       Sample.world ["6"; "2025-01-01"]))))
     = lib (Sample.world []).
Proof.
  destruct (borrow_of_borrowed_book_fails Sample.dec_int)
    as (Hdb & _ & Hagain & Happ).
  assert (Htaken : forall b, b ∈ lib (Sample.world []) -> Lib.id b = 6 ->
                             Lib.borrowed_by b <> None).
  { intros b Hb Hid. apply list_elem_of_In in Hb. simpl in Hb.
    destruct Hb as [<- | [<- | []]]; discriminate. }
  destruct (Hdb 6 "alice" "2025-01-01" (Sample.world []) Htaken)
    as (_ & Hraise & _ & Hlib & _).
  destruct (Hagain 5 "alice" "2025-01-01" "bob" "2025-02-02" (Sample.world [])
              eq_refl eq_refl) as (Hsecond & _).
  destruct (Happ (Sample.student [Logger]) (Sample.world ["6"; "2025-01-01"])
              "6" "2025-01-01" [] 6 eq_refl eq_refl eq_refl Htaken)
    as (_ & _ & Hlib' & _).
  split; [exact (Hraise eq_refl eq_refl) |].
  split; [exact Hlib |].
  split; [exact Hsecond | exact Hlib'].
Defined.

(** C5 as stated fails where a text holds a NUL character.  Book 6 is
    out; a borrow of it with such a return date is refused with the
    statement's own [ValueError], not the "book unavailable" one, at the
    gateway and at the terminal.  And a first borrow of the free book 5
    that is refused for such a date writes nothing, so that the borrow
    which follows succeeds. *)
Lemma borrow_of_borrowed_book_other_error :
  let g := Database.borrow_book 6 (Some "alice") Sample.nul_date
             (Sample.world []) in
  let s := LibraryApp.borrow_book Sample.dec_int
             (Sample.student [Logger],
              Sample.world ["6"; Sample.nul_date]) in
  let e1 := fst (Database.borrow_book 5 (Some "alice") Sample.nul_date
                   (Sample.world [])) in
  (forall b, b ∈ lib (Sample.world []) -> Lib.id b = 6 ->
             Lib.borrowed_by b <> None)
  /\ snd g = Raise (ValueError Database.MSG_NUL)
  /\ snd g <> Raise (ValueError Database.MSG_UNAVAILABLE)
  /\ last (stdout (snd (fst s))) = Some (Print Database.MSG_NUL)
  /\ lib e1 = lib (Sample.world [])
  /\ snd (Database.borrow_book 5 (Some "bob") "2025-02-02" e1) = Ok tt.
Proof.
  cbv zeta. split; [|split; [|split; [|split; [|split]]]].
  - intros b Hb Hid. apply list_elem_of_In in Hb. simpl in Hb.
    destruct Hb as [<- | [<- | []]]; discriminate.
  - vm_compute. reflexivity.
  - vm_compute. discriminate.
  - vm_compute. reflexivity.
  - vm_compute. reflexivity.
  - vm_compute. reflexivity.
Qed.

(** C6. When the session's role is not "librarian" the return action is
    refused with a message, both when the method is called and when "3" is
    typed at the menu; nothing but the terminal changes: the tables, the
    cursor, the log and the clock are as they were, no statement having
    been sent to the store. *)
Theorem return_refused_for_non_librarian
    (py_int : string -> Z + string) (app : LibraryApp.t) (e : Env) :
  LibraryApp.role app <> Some "librarian" ->
  LibraryApp.return_book py_int (app, e)
  = ((app, printed LibraryApp.MSG_NO_RETURN_ACCESS e), Ok tt)
  /\ (forall rest, stdin e = "3" :: rest ->
        let s := LibraryApp.menu_turn py_int (app, e) in
        s = ((app, printed LibraryApp.MSG_BAD_CHOICE
                     (prompted LibraryApp.PROMPT_CHOICE rest
                        (menu_shown app e))), Ok true)
        /\ lib (snd (fst s)) = lib e /\ roles (snd (fst s)) = roles e
        /\ rowcount (snd (fst s)) = rowcount e
        /\ log_file (snd (fst s)) = log_file e
        /\ ticks (snd (fst s)) = ticks e).
Proof.
  intros Hrole. apply opt_eqb_false in Hrole. split.
  - now apply return_book_refused.
  - intros rest Hin s. subst s.
    rewrite (menu_turn_refuses_return py_int app e rest Hrole Hin).
    repeat split.
Qed.

Lemma return_refused_for_non_librarian_witness :
  LibraryApp.return_book Sample.dec_int
    (Sample.student [Logger], Sample.world ["6"])
  = ((Sample.student [Logger],
      printed LibraryApp.MSG_NO_RETURN_ACCESS (Sample.world ["6"])), Ok tt)
  /\ lib (snd (fst (LibraryApp.menu_turn Sample.dec_int
                      (Sample.student [Logger], Sample.world ["3"; "6"]))))
     = [Sample.book5; Sample.book6].
Proof.
  split.
  - apply (return_refused_for_non_librarian Sample.dec_int
             (Sample.student [Logger]) (Sample.world ["6"])).
    discriminate.
  - destruct (return_refused_for_non_librarian Sample.dec_int
                (Sample.student [Logger]) (Sample.world ["3"; "6"]))
      as [_ H]; [discriminate|].
    destruct (H ["6"] eq_refl) as (_ & Hlib & _). exact Hlib.
Defined.

(** C7, as the code has it.  After a successful borrow or return the
    controller calls [update] with the formatted message on the
    subscribers in registration order, once each, until one of them fails
    to complete: the subscribers registered after that one receive
    nothing.  When all complete, all have received the message.  When the
    borrow raised the unavailability error no subscriber is called. *)
Theorem notification_in_registration_order (py_int : string -> Z + string) :
  (forall (obs : list Observer) (message : string) (e : Env),
     (exists e', delivered message obs e e'
                 /\ LibraryApp.notify_each obs message e = (e', Ok tt))
     \/ (exists pre o post e1 e2 r,
           obs = (pre ++ o :: post)%list
           /\ delivered message pre e e1
           /\ update o message e1 = (e2, r) /\ r <> Ok tt
           /\ LibraryApp.notify_each obs message e = (e2, r)))
  /\ (forall (app : LibraryApp.t) (e : Env) (line return_date : string)
             (rest : list string) (book_id : Z),
        opt_in (LibraryApp.role app) ["student"; "librarian"] = true ->
        stdin e = line :: return_date :: rest ->
        py_int line = inl book_id ->
        let g := Database.borrow_book book_id (LibraryApp.username app)
                   return_date (asked_borrow return_date rest e) in
        let message :=
          LibraryApp.NOTE_BORROWED book_id (LibraryApp.username app) in
        (snd g = Ok tt ->
           LibraryApp.borrow_book py_int (app, e)
           = after_notify app
               (LibraryApp.notify_each (LibraryApp.observers app) message
                  (printed LibraryApp.MSG_BORROWED (fst g)))
           /\ forall e', delivered message (LibraryApp.observers app)
                           (printed LibraryApp.MSG_BORROWED (fst g)) e' ->
                LibraryApp.borrow_book py_int (app, e) = ((app, e'), Ok tt))
        /\ (snd g = Raise (ValueError Database.MSG_UNAVAILABLE) ->
              LibraryApp.borrow_book py_int (app, e)
              = ((app, printed Database.MSG_UNAVAILABLE (fst g)), Ok tt)))
  /\ (forall (app : LibraryApp.t) (e : Env) (line : string)
             (rest : list string) (book_id : Z),
        opt_eqb (LibraryApp.role app) "librarian" = true ->
        stdin e = line :: rest ->
        py_int line = inl book_id ->
        let e1 := printed LibraryApp.MSG_RETURNED
                    (fst (Database.return_book book_id
                            (asked_return rest e))) in
        let message := LibraryApp.NOTE_RETURNED book_id in
        LibraryApp.return_book py_int (app, e)
        = after_notify app
            (LibraryApp.notify_each (LibraryApp.observers app) message e1)
        /\ forall e', delivered message (LibraryApp.observers app) e1 e' ->
             LibraryApp.return_book py_int (app, e) = ((app, e'), Ok tt)).
Proof.
  split; [|split].
  - exact notify_each_outcome.
  - intros app e line return_date rest book_id Hrole Hin Hint g message.
    subst g message.
    rewrite (borrow_book_call py_int app e line return_date rest book_id
               Hrole Hin Hint).
    destruct (Database.borrow_book book_id (LibraryApp.username app)
                return_date (asked_borrow return_date rest e)) as [e1 r].
    cbn [fst snd]. split.
    + intros ->. split; [reflexivity|].
      intros e' Hd. now rewrite (delivered_notify _ _ _ _ Hd).
    + intros ->. reflexivity.
  - intros app e line rest book_id Hrole Hin Hint e1 message.
    subst e1 message.
    rewrite (return_book_run py_int app e line rest book_id Hrole Hin Hint).
    rewrite return_book_unfold. cbn [fst].
    split; [reflexivity|].
    intros e' Hd. now rewrite (delivered_notify _ _ _ _ Hd).
Qed.

(** Two loggers: both get the line, in order. *)
Lemma notification_in_registration_order_witness :
  log_file (snd (fst (LibraryApp.borrow_book Sample.dec_int
                        (Sample.student [Logger; Logger],
                         Sample.world ["5"; "2025-01-01"]))))
  = ["2024-12-01 10:00:01: Книга ID 5 выдана пользователю alice.";
     "2024-12-01 10:00:02: Книга ID 5 выдана пользователю alice."].
Proof.
  destruct (notification_in_registration_order Sample.dec_int)
    as (_ & Hborrow & _).
  destruct (Hborrow (Sample.student [Logger; Logger])
              (Sample.world ["5"; "2025-01-01"]) "5" "2025-01-01" [] 5
              eq_refl eq_refl eq_refl) as [Hok _].
  destruct Hok as [_ Hall]; [vm_compute; reflexivity|].
  set (message := LibraryApp.NOTE_BORROWED 5 (Some "alice")).
  set (e1 := printed LibraryApp.MSG_BORROWED
               (fst (Database.borrow_book 5 (Some "alice") "2025-01-01"
                       (asked_borrow "2025-01-01" []
                          (Sample.world ["5"; "2025-01-01"]))))).
  set (e2 := fst (update Logger message e1)).
  set (e3 := fst (update Logger message e2)).
  rewrite (Hall e3).
  - vm_compute. reflexivity.
  - apply delivered_cons with (e1 := e2); [vm_compute; reflexivity|].
    apply delivered_cons with (e1 := e3); [vm_compute; reflexivity|].
    apply delivered_nil.
Defined.

(** C7 as stated fails: with the base [Observer] registered before a
    [Logger], a borrow succeeds (the row is written, the success message
    printed) and the [Logger] is never called: the log stays empty and the
    call ends with the [NotImplementedError] of the first subscriber. *)
Lemma notification_stops_at_first_raise :
  let s := LibraryApp.borrow_book Sample.dec_int
             (Sample.student [BaseObserver; Logger],
              Sample.world ["5"; "2025-01-01"]) in
  lib (snd (fst s)) !! 0%nat
  = Some (Lib.mkRow 5 "Dune" "Herbert" "1965-08-01"
            (Some "alice") (Some "2024-12-01") (Some "2025-01-01"))
  /\ last (stdout (snd (fst s))) = Some (Print LibraryApp.MSG_BORROWED)
  /\ snd s = Raise (NotImplementedError MSG_NOT_IMPLEMENTED)
  /\ log_file (snd (fst s)) = []
  /\ ~ exists e e',
         delivered (LibraryApp.NOTE_BORROWED 5 (Some "alice"))
           [BaseObserver; Logger] e e'.
Proof.
  cbv zeta.
  split; [vm_compute; reflexivity|].
  split; [vm_compute; reflexivity|].
  split; [vm_compute; reflexivity|].
  split; [vm_compute; reflexivity|].
  intros (e & e' & Hd). inversion Hd as [|o rest' e0 e1 e2 Hu _]; subst.
  discriminate Hu.
Qed.

Section Refusal.


End Refusal.



(** C9, as the code has it.  [Database.return_book] raises nothing for
    any id and any store, and once the role gate is passed and the id is
    read the success message is printed for every id.  The handler of the
    [try] is then entered exactly when the notification that follows ends
    with a [ValueError] of a subscriber, never because of the gateway; with
    no such subscriber the call ends as the notification does. *)
Theorem return_handler_only_for_subscribers (py_int : string -> Z + string) :
  (forall (book_id : Z) (e : Env),
     snd (Database.return_book book_id e) = Ok tt)
  /\ (forall (app : LibraryApp.t) (e : Env) (line : string)
             (rest : list string) (book_id : Z),
        opt_eqb (LibraryApp.role app) "librarian" = true ->
        stdin e = line :: rest ->
        py_int line = inl book_id ->
        let e1 := printed LibraryApp.MSG_RETURNED
                    (fst (Database.return_book book_id
                            (asked_return rest e))) in
        let n := LibraryApp.notify_each (LibraryApp.observers app)
                   (LibraryApp.NOTE_RETURNED book_id) e1 in
        (forall msg, snd n = Raise (ValueError msg) ->
           LibraryApp.return_book py_int (app, e)
           = ((app, printed msg (fst n)), Ok tt))
        /\ ((forall msg, snd n <> Raise (ValueError msg)) ->
            LibraryApp.return_book py_int (app, e) = ((app, fst n), snd n))
        /\ (LibraryApp.observers app = [] ->
            LibraryApp.return_book py_int (app, e) = ((app, e1), Ok tt))).
Proof.
  split; [reflexivity|].
  intros app e line rest book_id Hrole Hin Hint e1 n. subst n e1.
  rewrite (return_book_run py_int app e line rest book_id Hrole Hin Hint).
  rewrite return_book_unfold. cbn [fst].
  split; [|split].
  - intros msg H.
    destruct (LibraryApp.notify_each _ _ _) as [e2 r]. simpl in H. now subst.
  - intros H.
    destruct (LibraryApp.notify_each _ _ _) as [e2 [[]|[]|]];
      try reflexivity.
    now destruct (H msg).
  - intros ->. reflexivity.
Qed.

Lemma return_handler_only_for_subscribers_witness :
  LibraryApp.return_book Sample.dec_int
    (Sample.librarian [], Sample.world ["6"])
  = ((Sample.librarian [],
      printed LibraryApp.MSG_RETURNED
        (fst (Database.return_book 6 (asked_return [] (Sample.world ["6"]))))),
     Ok tt).
Proof.
  destruct (return_handler_only_for_subscribers Sample.dec_int) as [_ H].
  destruct (H (Sample.librarian []) (Sample.world ["6"]) "6" [] 6
              eq_refl eq_refl eq_refl) as (_ & _ & Hnone).
  exact (Hnone eq_refl).
Defined.

(** C9 as stated fails: the handler is live.  A subscriber whose [update]
    raises a [ValueError] has it caught by the return action, which prints
    the error after the success message; so has the [Logger] of the
    program itself when the platform cannot encode the line. *)
Lemma return_handler_is_reachable :
  let body (app : LibraryApp.t) (e : Env) :=
    LibraryApp.notify_each (LibraryApp.observers app)
      (LibraryApp.NOTE_RETURNED 6)
      (printed LibraryApp.MSG_RETURNED
         (fst (Database.return_book 6 (asked_return [] e)))) in
  let s1 := LibraryApp.return_book Sample.dec_int
              (Sample.librarian [Sample.Rejecting], Sample.world ["6"]) in
  let w2 := Sample.with_log_fault Sample.unencodable (Sample.world ["6"]) in
  let s2 := LibraryApp.return_book Sample.dec_int
              (Sample.librarian [Logger], w2) in
  snd (body (Sample.librarian [Sample.Rejecting]) (Sample.world ["6"]))
  = Raise (ValueError "rejected")
  /\ snd s1 = Ok tt
  /\ drop 4 (stdout (snd (fst s1)))
     = [Print LibraryApp.MSG_RETURNED; Print "rejected"]
  /\ snd (body (Sample.librarian [Logger]) w2)
     = Raise (ValueError "codec can't encode characters")
  /\ snd s2 = Ok tt
  /\ drop 4 (stdout (snd (fst s2)))
     = [Print LibraryApp.MSG_RETURNED;
        Print "codec can't encode characters"].
Proof. cbv zeta. repeat split; vm_compute; reflexivity. Qed.

(* ===================================================================== *)
(** ** Relations kept by a whole session                                  *)
(* ===================================================================== *)

Section Frame.

Variable py_int : string -> Z + string.
Variable P : LibraryApp.t -> Env -> Prop.
Variable R : Env -> Env -> Prop.

(** [R] holds across every step that writes to neither table, and
    composes; [P] survives a step that [R] relates. *)
Hypothesis R_quiet :
  forall e e', lib e' = lib e -> roles e' = roles e -> R e e'.
Hypothesis R_trans : forall e1 e2 e3, R e1 e2 -> R e2 e3 -> R e1 e3.
Hypothesis P_stable : forall app e e', P app e -> R e e' -> P app e'.

(** The three places where the controller can write to a table. *)
Hypothesis R_borrow :
  forall app e book_id return_date, P app e ->
    R e (fst (Database.borrow_book book_id (LibraryApp.username app)
                return_date e)).
Hypothesis R_return :
  forall app e book_id, P app e ->
    opt_eqb (LibraryApp.role app) "librarian" = true ->
    R e (fst (Database.return_book book_id e)).
Hypothesis R_notify :
  forall app e message, P app e ->
    R e (fst (LibraryApp.notify_each (LibraryApp.observers app) message e)).

Implicit Types (app : LibraryApp.t) (e : Env).

Lemma R_refl e : R e e.
Proof. now apply R_quiet. Qed.

Lemma keeps_bind {A B} app (c : M LibraryApp.State A)
    (k : A -> M LibraryApp.State B) :
  keeps P R app c -> (forall a, keeps P R app (k a)) ->
  keeps P R app (bind c k).
Proof.
  intros Hc Hk e HP. unfold bind.
  destruct (Hc e HP) as [Happ HR].
  destruct (c (app, e)) as [[app1 e1] [a|ex|]]; simpl in *; subst app1.
  - destruct (Hk a e1 (P_stable _ _ _ HP HR)) as [Happ' HR'].
    split; [assumption | eapply R_trans; eassumption].
  - now split.
  - now split.
Qed.

Lemma keeps_try app (body : M LibraryApp.State unit)
    (handler : string -> M LibraryApp.State unit) :
  keeps P R app body -> (forall msg, keeps P R app (handler msg)) ->
  keeps P R app (try_except_ValueError body handler).
Proof.
  intros Hb Hh e HP. unfold try_except_ValueError.
  destruct (Hb e HP) as [Happ HR].
  destruct (body (app, e)) as [[app1 e1] [[]|[msg| | | |]|]];
    simpl in *; subst app1; try (now split).
  destruct (Hh msg e1 (P_stable _ _ _ HP HR)) as [Happ' HR'].
  split; [assumption | eapply R_trans; eassumption].
Qed.

Lemma keeps_lift {A} app (c : M Env A) :
  (forall e, P app e -> R e (fst (c e))) -> keeps P R app (LibraryApp.lift c).
Proof.
  intros Hc e HP. unfold LibraryApp.lift. simpl.
  specialize (Hc e HP). destruct (c e) as [e' r]. now split.
Qed.

Lemma keeps_lift_quiet {A} app (c : M Env A) :
  (forall e, lib (fst (c e)) = lib e /\ roles (fst (c e)) = roles e) ->
  keeps P R app (LibraryApp.lift c).
Proof.
  intros Hc. apply keeps_lift. intros e _.
  destruct (Hc e). now apply R_quiet.
Qed.

Lemma keeps_still {A} app (c : M LibraryApp.State A) :
  (forall s, fst (c s) = s) -> keeps P R app c.
Proof. intros Hc e _. rewrite Hc. split; [reflexivity | apply R_refl]. Qed.

Lemma keeps_self {A} app (k : LibraryApp.t -> M LibraryApp.State A) :
  keeps P R app (k app) -> keeps P R app (bind LibraryApp.self k).
Proof. intros Hk e HP. exact (Hk e HP). Qed.

Lemma keeps_print app s : keeps P R app (LibraryApp.lift (print s)).
Proof. apply keeps_lift_quiet. intros e. now split. Qed.

Lemma keeps_input app prompt :
  keeps P R app (LibraryApp.lift (input prompt)).
Proof.
  apply keeps_lift_quiet. intros e. unfold input. simpl.
  destruct (stdin e); now split.
Qed.

Lemma keeps_int app line : keeps P R app (LibraryApp.int py_int line).
Proof.
  apply keeps_still. intros s. unfold LibraryApp.int.
  destruct (py_int line); reflexivity.
Qed.

Lemma keeps_ret {A} app (a : A) : keeps P R app (ret a).
Proof. now apply keeps_still. Qed.

Lemma keeps_show_books app : keeps P R app LibraryApp.show_books.
Proof.
  intros e _. rewrite show_books_run.
  split; [reflexivity | now apply R_quiet].
Qed.

Lemma keeps_notify app message :
  keeps P R app (LibraryApp.notify_observers message).
Proof.
  unfold LibraryApp.notify_observers. apply keeps_self.
  apply keeps_lift. intros e HP. now apply R_notify.
Qed.

Lemma keeps_borrow_book app : keeps P R app (LibraryApp.borrow_book py_int).
Proof.
  unfold LibraryApp.borrow_book. apply keeps_self.
  destruct (negb (opt_in (LibraryApp.role app) ["student"; "librarian"]));
    [apply keeps_print|].
  apply keeps_bind; [apply keeps_show_books | intros _].
  apply keeps_bind; [apply keeps_input | intros line].
  apply keeps_bind; [apply keeps_int | intros book_id].
  apply keeps_bind; [apply keeps_input | intros return_date].
  apply keeps_try; [|intros msg; apply keeps_print].
  apply keeps_bind; [|intros _].
  { apply keeps_lift. intros e HP. now apply R_borrow. }
  apply keeps_bind; [apply keeps_print | intros _].
  apply keeps_notify.
Qed.

Lemma keeps_return_book app : keeps P R app (LibraryApp.return_book py_int).
Proof.
  unfold LibraryApp.return_book. apply keeps_self.
  destruct (opt_eqb (LibraryApp.role app) "librarian") eqn:Hrole;
    [|apply keeps_print].
  cbn [negb].
  apply keeps_bind; [apply keeps_show_books | intros _].
  apply keeps_bind; [apply keeps_input | intros line].
  apply keeps_bind; [apply keeps_int | intros book_id].
  apply keeps_try; [|intros msg; apply keeps_print].
  apply keeps_bind; [|intros _].
  { apply keeps_lift. intros e HP. now apply (R_return app). }
  apply keeps_bind; [apply keeps_print | intros _].
  apply keeps_notify.
Qed.

Lemma keeps_menu_turn app : keeps P R app (LibraryApp.menu_turn py_int).
Proof.
  unfold LibraryApp.menu_turn. apply keeps_self.
  apply keeps_bind; [apply keeps_print | intros _].
  apply keeps_bind; [|intros _].
  { unfold LibraryApp.when. destruct (opt_in _ _);
      [apply keeps_print | apply keeps_ret]. }
  apply keeps_bind; [|intros _].
  { unfold LibraryApp.when. destruct (opt_eqb _ _);
      [apply keeps_print | apply keeps_ret]. }
  apply keeps_bind; [apply keeps_print | intros _].
  apply keeps_bind; [apply keeps_input | intros choice].
  destruct (choice =? "1")%string.
  { apply keeps_bind; [apply keeps_show_books | intros _; apply keeps_ret]. }
  destruct ((choice =? "2")%string && _).
  { apply keeps_bind; [apply keeps_borrow_book | intros _; apply keeps_ret]. }
  destruct ((choice =? "3")%string && _).
  { apply keeps_bind; [apply keeps_return_book | intros _; apply keeps_ret]. }
  destruct (choice =? "0")%string; [apply keeps_ret|].
  apply keeps_bind; [apply keeps_print | intros _; apply keeps_ret].
Qed.

(** The relation is kept by the whole loop, however long it runs and
    however it ends. *)
Lemma keeps_menu_loop (fuel : nat) app :
  keeps P R app (LibraryApp.menu_loop py_int fuel).
Proof.
  induction fuel as [|fuel IH]; simpl.
  - now apply keeps_still.
  - apply keeps_bind; [apply keeps_menu_turn|].
    intros [|]; [exact IH | apply keeps_ret].
Qed.

End Frame.

Section Session.

Variable py_int : string -> Z + string.

Implicit Types (app : LibraryApp.t) (e : Env).

Lemma update_rows_catalogue cond set (rows : list Lib.row) :
  (forall b, catalogue (set b) = catalogue b) ->
  map catalogue (Database.update_rows cond set rows) = map catalogue rows.
Proof.
  intros Hset. unfold Database.update_rows.
  induction rows as [|b rows IH]; simpl; [reflexivity|].
  rewrite IH. destruct (cond b); [now rewrite Hset | reflexivity].
Qed.

Lemma notify_each_quiet obs message e :
  Forall quiet obs ->
  lib (fst (LibraryApp.notify_each obs message e)) = lib e
  /\ roles (fst (LibraryApp.notify_each obs message e)) = roles e.
Proof.
  intros Hobs. revert e.
  induction Hobs as [|o obs Ho _ IH]; intros e; simpl; [now split|].
  unfold bind. destruct (Ho message e) as [Hl Hr].
  destruct (update o message e) as [e1 [[]|ex|]]; simpl in *;
    try (now split).
  destruct (IH e1) as [Hl' Hr']. split; congruence.
Qed.

Lemma Logger_quiet : quiet Logger.
Proof.
  intros message e. unfold Logger, update, bind, now, get, modify, raise.
  simpl. destruct (log_fault e _); now split.
Qed.

Lemma BaseObserver_quiet : quiet BaseObserver.
Proof. intros message e. now split. Qed.

Lemma opt_eqb_true (o : option string) (s : string) :
  opt_eqb o s = true -> o = Some s.
Proof.
  destruct o as [s'|]; simpl; [|discriminate].
  intros H. apply String.eqb_eq in H. now subst.
Qed.

Lemma authenticate_result_roles username password e e' :
  roles e' = roles e ->
  snd (Database.authenticate_user username password e')
  = snd (Database.authenticate_user username password e).
Proof.
  intros H. rewrite !authenticate_user_unfold.
  destruct (has_nul username || has_nul password); [reflexivity|].
  simpl. now rewrite H.
Qed.

(** What [login] leaves: the tables and the subscribers as they were;
    and when it returns, two lines were typed, the store answered with
    a role, and the application object holds the name and that role. *)
Lemma login_outcome app e (s : LibraryApp.State) (r : result unit) :
  LibraryApp.login (app, e) = (s, r) ->
  lib (snd s) = lib e /\ roles (snd s) = roles e
  /\ LibraryApp.observers (fst s) = LibraryApp.observers app
  /\ (r = Ok tt ->
      exists u p rest role,
        stdin e = u :: p :: rest
        /\ snd (Database.authenticate_user u p e) = Ok (Some role)
        /\ truthy (Some role) = true
        /\ fst s = LibraryApp.mk (Some role) (Some u)
                     (LibraryApp.observers app)).
Proof.
  destruct (stdin e) as [|u [|p rest]] eqn:Hin.
  { unfold LibraryApp.login.
    rewrite (bind_raise _ _ _ _ _
               (lift_run _ app _ _ _
                  (input_eof LibraryApp.PROMPT_LOGIN e Hin))).
    intros [= <- <-]. simpl. repeat split. discriminate. }
  { unfold LibraryApp.login.
    rewrite (bind_ok _ _ _ _ _
               (lift_run _ app _ _ _
                  (input_run LibraryApp.PROMPT_LOGIN u [] e Hin))).
    unfold LibraryApp.set_username at 1, modify at 1, bind at 1.
    cbn [fst snd]. unfold getpass.
    rewrite (bind_raise _ _ _ _ _
               (lift_run _ _ _ _ _
                  (input_eof LibraryApp.PROMPT_PASSWORD
                     (prompted LibraryApp.PROMPT_LOGIN [] e) eq_refl))).
    intros [= <- <-]. simpl. repeat split. discriminate. }
  rewrite (login_call app e u p rest Hin).
  pose proof (authenticate_result_roles u p e
                (prompted LibraryApp.PROMPT_PASSWORD rest
                   (prompted LibraryApp.PROMPT_LOGIN (p :: rest) e))
                eq_refl) as Hauth.
  revert Hauth. rewrite authenticate_user_unfold.
  destruct (has_nul u || has_nul p).
  { intros _ [= <- <-]. simpl. repeat split. discriminate. }
  cbn [snd]. intros Hauth.
  match goal with
  | |- context [truthy ?x] => destruct x as [role|] eqn:Hsel
  end.
  2:{ cbn [truthy]. intros [= <- <-]. simpl. repeat split. discriminate. }
  destruct (truthy (Some role)) eqn:Htruthy.
  - intros [= <- <-]. simpl. repeat split.
    intros _. exists u, p, rest, role. repeat split; try assumption.
    now rewrite <- Hauth.
  - intros [= <- <-]. simpl. repeat split. discriminate.
Qed.

(** [run] keeps whatever the loop keeps and a quiet step keeps. *)
Lemma run_keeps (P : LibraryApp.t -> Env -> Prop) (R : Env -> Env -> Prop)
    (fuel : nat) app e :
  (forall e e', lib e' = lib e -> roles e' = roles e -> R e e') ->
  (forall e1 e2 e3, R e1 e2 -> R e2 e3 -> R e1 e3) ->
  (forall app', keeps P R app' (LibraryApp.menu_loop py_int fuel)) ->
  (forall s, LibraryApp.login (app, e) = (s, Ok tt) -> P (fst s) (snd s)) ->
  R e (snd (fst (LibraryApp.run py_int fuel (app, e)))).
Proof.
  intros R_quiet R_trans Hloop HP. unfold LibraryApp.run, bind.
  destruct (LibraryApp.login (app, e)) as [[app1 e1] r] eqn:Hlogin.
  destruct (login_outcome app e _ _ Hlogin) as (Hlib & Hroles & _ & _).
  simpl in Hlib, Hroles.
  destruct r as [[]|ex|]; simpl; try (now apply R_quiet).
  destruct (Hloop app1 e1 (HP _ eq_refl)) as [_ HR].
  eapply R_trans; [apply R_quiet; eassumption | exact HR].
Qed.

End Session.

Section Relations.

Variable py_int : string -> Z + string.

Implicit Types (app : LibraryApp.t) (e : Env).

Lemma same_catalogue_quiet e e' :
  lib e' = lib e -> roles e' = roles e -> same_catalogue e e'.
Proof. intros Hl Hr. unfold same_catalogue. now rewrite Hl, Hr. Qed.

Lemma same_catalogue_trans e1 e2 e3 :
  same_catalogue e1 e2 -> same_catalogue e2 e3 -> same_catalogue e1 e3.
Proof. unfold same_catalogue. intros [] []. split; congruence. Qed.

Lemma same_catalogue_borrow book_id username return_date e :
  same_catalogue e
    (fst (Database.borrow_book book_id username return_date e)).
Proof.
  rewrite borrow_book_unfold. unfold same_catalogue.
  destruct (param_has_nul username || has_nul return_date);
    [now split|]. simpl.
  split; [|reflexivity]. now apply update_rows_catalogue.
Qed.

Lemma same_catalogue_return book_id e :
  same_catalogue e (fst (Database.return_book book_id e)).
Proof.
  rewrite return_book_unfold. unfold same_catalogue. simpl.
  split; [|reflexivity]. now apply update_rows_catalogue.
Qed.

Lemma menu_loop_same_catalogue (fuel : nat) app :
  keeps quiet_session same_catalogue app (LibraryApp.menu_loop py_int fuel).
Proof.
  apply keeps_menu_loop.
  - exact same_catalogue_quiet.
  - exact same_catalogue_trans.
  - intros a e e' H _. exact H.
  - intros a e book_id return_date _. apply same_catalogue_borrow.
  - intros a e book_id _ _. apply same_catalogue_return.
  - intros a e message H.
    destruct (notify_each_quiet (LibraryApp.observers a) message e H).
    now apply same_catalogue_quiet.
Qed.

Lemma carries_quiet e e' :
  lib e' = lib e -> roles e' = roles e -> carries_triple_inv e e'.
Proof. intros Hl _ H. now rewrite Hl. Qed.

Lemma carries_trans e1 e2 e3 :
  carries_triple_inv e1 e2 -> carries_triple_inv e2 e3 ->
  carries_triple_inv e1 e3.
Proof. unfold carries_triple_inv. auto. Qed.

Lemma menu_loop_carries_triple_inv (fuel : nat) app :
  keeps named_session carries_triple_inv app
    (LibraryApp.menu_loop py_int fuel).
Proof.
  apply keeps_menu_loop.
  - exact carries_quiet.
  - exact carries_trans.
  - intros a e e' H _. exact H.
  - intros a e book_id return_date [Hname _].
    destruct (LibraryApp.username a) as [u|]; [|congruence].
    exact (apply_op_inv (Borrow book_id u return_date) e).
  - intros a e book_id _ _. exact (apply_op_inv (Return book_id) e).
  - intros a e message [_ H].
    destruct (notify_each_quiet (LibraryApp.observers a) message e H).
    now apply carries_quiet.
Qed.

Lemma kept_quiet e e' :
  lib e' = lib e -> roles e' = roles e -> borrowed_rows_kept e e'.
Proof. intros Hl _ i b Hi _. now rewrite Hl. Qed.

Lemma kept_trans e1 e2 e3 :
  borrowed_rows_kept e1 e2 -> borrowed_rows_kept e2 e3 ->
  borrowed_rows_kept e1 e3.
Proof. unfold borrowed_rows_kept. intros H1 H2 i b Hi Hb. eauto. Qed.

Lemma kept_borrow book_id username return_date e :
  borrowed_rows_kept e
    (fst (Database.borrow_book book_id username return_date e)).
Proof.
  intros i b Hi Hb. rewrite borrow_book_unfold.
  destruct (param_has_nul username || has_nul return_date);
    [exact Hi|]. simpl.
  rewrite update_rows_lookup, Hi. simpl.
  rewrite (proj2 (borrow_cond_false book_id b)); [reflexivity|].
  now intros [_ Hn].
Qed.

Lemma menu_loop_keeps_borrowed (fuel : nat) app :
  keeps reader_session borrowed_rows_kept app
    (LibraryApp.menu_loop py_int fuel).
Proof.
  apply keeps_menu_loop.
  - exact kept_quiet.
  - exact kept_trans.
  - intros a e e' H _. exact H.
  - intros a e book_id return_date _. apply kept_borrow.
  - intros a e book_id [Hrole _] Hlib.
    apply opt_eqb_true in Hlib. contradiction.
  - intros a e message [_ H].
    destruct (notify_each_quiet (LibraryApp.observers a) message e H).
    now apply kept_quiet.
Qed.

Lemma main_quiet : Forall quiet
  (LibraryApp.observers
     (LibraryApp.register_observer Logger LibraryApp.__init__)).
Proof. simpl. constructor; [exact Logger_quiet | constructor]. Qed.

End Relations.

(** X1. Whatever is typed, a session whose subscribers leave the tables
    alone never adds, deletes or renames a book and never writes to the
    roles table: the ids, titles, authors and release dates of the rows
    are, up to the order of the rows, what they were.  So it is for the
    program itself. *)
Theorem session_keeps_catalogue (py_int : string -> Z + string) (fuel : nat) :
  (forall (app : LibraryApp.t) (e : Env),
     Forall quiet (LibraryApp.observers app) ->
     same_books e (snd (fst (LibraryApp.run py_int fuel (app, e)))))
  /\ (forall e : Env,
        same_books e (snd (fst (LibraryApp.main py_int fuel e)))).
Proof.
  assert (Hrun : forall app e, Forall quiet (LibraryApp.observers app) ->
            same_catalogue e (snd (fst (LibraryApp.run py_int fuel (app, e))))).
  { intros app e Hq.
    apply (run_keeps py_int quiet_session same_catalogue).
    - exact same_catalogue_quiet.
    - exact same_catalogue_trans.
    - intros app'. apply menu_loop_same_catalogue.
    - intros s Hl. destruct (login_outcome app e _ _ Hl) as (_ & _ & Ho & _).
      unfold quiet_session. now rewrite Ho. }
  assert (Hbooks : forall e e', same_catalogue e e' -> same_books e e').
  { intros e e' [Hl Hr]. split; [now rewrite Hl | exact Hr]. }
  split.
  - intros app e Hq. apply Hbooks, Hrun, Hq.
  - intros e. apply Hbooks, Hrun. exact main_quiet.
Qed.

Lemma session_keeps_catalogue_witness :
  map catalogue
    (lib (snd (fst (LibraryApp.run Sample.dec_int 9
                      (Sample.student [Logger; BaseObserver],
                       Sample.world ["carol"; "books"; "2"; "5"; "2025-01-01";
                                     "3"; "6"; "0"])))))
  ≡ₚ [(5, "Dune", "Herbert", "1965-08-01");
      (6, "Emma", "Austen", "1815-12-23")].
Proof.
  destruct (session_keeps_catalogue Sample.dec_int 9) as [Hrun _].
  apply (Hrun (Sample.student [Logger; BaseObserver])).
  simpl. constructor; [exact Logger_quiet|].
  constructor; [exact BaseObserver_quiet | constructor].
Defined.

(** X2. Whatever is typed, a session whose subscribers leave the tables
    alone keeps the triple invariant of every row: [login] has stored a
    user name before any borrow can run.  So it is for the program. *)
Theorem session_keeps_triple_invariant
    (py_int : string -> Z + string) (fuel : nat) :
  (forall (app : LibraryApp.t) (e : Env),
     Forall quiet (LibraryApp.observers app) ->
     Forall triple_inv (lib e) ->
     Forall triple_inv
       (lib (snd (fst (LibraryApp.run py_int fuel (app, e))))))
  /\ (forall e : Env,
        Forall triple_inv (lib e) ->
        Forall triple_inv (lib (snd (fst (LibraryApp.main py_int fuel e))))).
Proof.
  assert (Hrun : forall app e, Forall quiet (LibraryApp.observers app) ->
            carries_triple_inv e
              (snd (fst (LibraryApp.run py_int fuel (app, e))))).
  { intros app e Hq.
    apply (run_keeps py_int named_session carries_triple_inv).
    - exact carries_quiet.
    - exact carries_trans.
    - intros app'. apply menu_loop_carries_triple_inv.
    - intros s Hl.
      destruct (login_outcome app e _ _ Hl) as (_ & _ & Ho & Hok).
      destruct (Hok eq_refl) as (u & p & rest & role & _ & _ & _ & Happ).
      split; [now rewrite Happ | now rewrite Ho]. }
  split; [exact Hrun|].
  intros e. apply Hrun. exact main_quiet.
Qed.

Lemma session_keeps_triple_invariant_witness :
  Forall triple_inv
    (lib (snd (fst (LibraryApp.main Sample.dec_int 9
                      (Sample.world ["carol"; "books"; "2"; "5"; "2025-01-01";
                                     "3"; "6"; "3"; "x"]))))).
Proof.
  destruct (session_keeps_triple_invariant Sample.dec_int 9) as [_ Hmain].
  apply Hmain.
  repeat constructor; simpl; intuition congruence.
Defined.

(** X3. In a session that is not a librarian's, whatever is typed, every
    row that has a borrower stays the row it was: a borrow only writes to
    rows without a borrower and the return action is out of reach.  So it
    is from the menu on for a role other than "librarian", and for a whole
    run when the store does not answer the login with that role. *)
Theorem reader_session_keeps_borrowed_rows
    (py_int : string -> Z + string) (fuel : nat) :
  (forall (app : LibraryApp.t) (e : Env),
     LibraryApp.role app <> Some "librarian" ->
     Forall quiet (LibraryApp.observers app) ->
     borrowed_rows_kept e
       (snd (fst (LibraryApp.menu_loop py_int fuel (app, e)))))
  /\ (forall (app : LibraryApp.t) (e : Env),
        Forall quiet (LibraryApp.observers app) ->
        (forall u p rest, stdin e = u :: p :: rest ->
           snd (Database.authenticate_user u p e)
           <> Ok (Some "librarian")) ->
        borrowed_rows_kept e
          (snd (fst (LibraryApp.run py_int fuel (app, e))))).
Proof.
  split.
  - intros app e Hrole Hq.
    now apply (menu_loop_keeps_borrowed py_int fuel app e).
  - intros app e Hq Hauth.
    apply (run_keeps py_int reader_session borrowed_rows_kept).
    + exact kept_quiet.
    + exact kept_trans.
    + intros app'. apply menu_loop_keeps_borrowed.
    + intros s Hl.
      destruct (login_outcome app e _ _ Hl) as (_ & _ & Ho & Hok).
      destruct (Hok eq_refl) as (u & p & rest & role & Hin & Hr & _ & Happ).
      split; [|now rewrite Ho].
      rewrite Happ. simpl. intros [= ->].
      now apply (Hauth u p rest Hin).
Qed.

Lemma reader_session_keeps_borrowed_rows_witness :
  lib (snd (fst (LibraryApp.run Sample.dec_int 9
                   (LibraryApp.__init__,
                    Sample.world ["alice"; "wonder"; "3"; "2"; "6";
                                  "2025-01-01"; "2"; "5"; "2025-01-01";
                                  "0"])))) !! 1%nat
  = Some Sample.book6.
Proof.
  destruct (reader_session_keeps_borrowed_rows Sample.dec_int 9) as [_ Hrun].
  apply (Hrun LibraryApp.__init__).
  - constructor.
  - intros u p rest [= <- <- <-]. vm_compute. discriminate.
  - reflexivity.
  - discriminate.
Defined.

(* ===================================================================== *)
(** ** Login, the menu and its edges                                      *)
(* ===================================================================== *)

Section Fuel.

Variable py_int : string -> Z + string.

Implicit Types (app : LibraryApp.t) (e : Env).

(** More fuel does not change an outcome that was reached. *)
Lemma menu_loop_more_fuel (fuel fuel' : nat) (s s' : LibraryApp.State)
    (r : result unit) :
  LibraryApp.menu_loop py_int fuel s = (s', r) -> r <> Diverge ->
  (fuel <= fuel')%nat ->
  LibraryApp.menu_loop py_int fuel' s = (s', r).
Proof.
  revert fuel' s. induction fuel as [|fuel IH]; intros fuel' s Hrun Hend Hle.
  - simpl in Hrun. injection Hrun as <- <-. contradiction.
  - destruct fuel' as [|fuel']; [lia|].
    simpl in *. unfold bind in *.
    destruct (LibraryApp.menu_turn py_int s) as [s1 [[|]|ex|]];
      try assumption.
    apply IH; [assumption | assumption | lia].
Qed.

Lemma run_more_fuel (fuel fuel' : nat) app e :
  Forall tame (LibraryApp.observers app) ->
  (length (stdin e) < fuel)%nat -> (fuel <= fuel')%nat ->
  LibraryApp.run py_int fuel' (app, e) = LibraryApp.run py_int fuel (app, e).
Proof.
  intros Hobs Hfuel Hle. unfold LibraryApp.run, bind.
  destruct (LibraryApp.login (app, e)) as [[app1 e1] [[]|ex|]] eqn:Hlogin;
    try reflexivity.
  destruct (login_ends app e _ _ Hlogin) as (_ & Hsame & Hlen).
  simpl in Hsame, Hlen.
  destruct (LibraryApp.menu_loop py_int fuel (app1, e1)) as [s' r] eqn:Hrun.
  apply (menu_loop_more_fuel fuel fuel' _ _ _ Hrun); [|assumption].
  pose proof (menu_loop_ends py_int fuel app1 e1) as Hend.
  rewrite Hrun in Hend. apply Hend; [now rewrite Hsame | lia].
Qed.

End Fuel.

(** X4. On a finite input the program comes to an end, and its outcome does
    not depend on the fuel given to the model of its loop, as soon as the
    fuel exceeds the number of lines typed: the same final state and the
    same result, which is a return or an exception.  So it is for every
    session whose subscribers end and type nothing. *)
Theorem session_outcome_determined
    (py_int : string -> Z + string) (fuel fuel' : nat) :
  (forall (app : LibraryApp.t) (e : Env),
     Forall tame (LibraryApp.observers app) ->
     (length (stdin e) < fuel)%nat -> (length (stdin e) < fuel')%nat ->
     snd (LibraryApp.run py_int fuel (app, e)) <> Diverge
     /\ LibraryApp.run py_int fuel (app, e)
        = LibraryApp.run py_int fuel' (app, e))
  /\ (forall e : Env,
        (length (stdin e) < fuel)%nat -> (length (stdin e) < fuel')%nat ->
        snd (LibraryApp.main py_int fuel e) <> Diverge
        /\ LibraryApp.main py_int fuel e = LibraryApp.main py_int fuel' e).
Proof.
  assert (Hrun : forall app e, Forall tame (LibraryApp.observers app) ->
     (length (stdin e) < fuel)%nat -> (length (stdin e) < fuel')%nat ->
     snd (LibraryApp.run py_int fuel (app, e)) <> Diverge
     /\ LibraryApp.run py_int fuel (app, e)
        = LibraryApp.run py_int fuel' (app, e)).
  { intros app e Hobs Hf Hf'. split; [now apply run_ends|].
    destruct (Nat.le_ge_cases fuel fuel') as [Hle | Hle].
    - symmetry. now apply run_more_fuel.
    - now apply run_more_fuel. }
  split; [exact Hrun|].
  intros e Hf Hf'. apply Hrun; [|assumption|assumption].
  simpl. constructor; [exact Logger_tame | constructor].
Qed.

Lemma session_outcome_determined_witness :
  LibraryApp.main Sample.dec_int 4 (Sample.world ["carol"; "books"; "1"])
  = LibraryApp.main Sample.dec_int 40 (Sample.world ["carol"; "books"; "1"]).
Proof.
  destruct (session_outcome_determined Sample.dec_int 4 40) as [_ Hmain].
  apply (Hmain (Sample.world ["carol"; "books"; "1"])); simpl; lia.
Defined.

(** X5. [login] lets the user in exactly when the store answers with a
    role that is not the empty text: it then stores the name and the role,
    prints the welcome and reads no further line.  A pair that the roles
    table holds with an empty role is refused like an unknown pair: the
    failure message and [SystemExit]. *)
Theorem login_needs_nonempty_role (app : LibraryApp.t) (e : Env)
    (u p : string) (rest : list string) (role : string) :
  stdin e = u :: p :: rest ->
  snd (Database.authenticate_user u p e) = Ok (Some role) ->
  let s := LibraryApp.login (app, e) in
  lib (snd (fst s)) = lib e /\ roles (snd (fst s)) = roles e
  /\ stdin (snd (fst s)) = rest
  /\ (role <> "" ->
      snd s = Ok tt
      /\ fst (fst s)
         = LibraryApp.mk (Some role) (Some u) (LibraryApp.observers app)
      /\ last (stdout (snd (fst s)))
         = Some (Print (LibraryApp.MSG_WELCOME (Some u) (Some role))))
  /\ (role = "" ->
      snd s = Raise SystemExit
      /\ last (stdout (snd (fst s))) = Some (Print LibraryApp.MSG_BAD_LOGIN)).
Proof.
  intros Hin Hauth. cbv zeta.
  assert (Hrun : LibraryApp.login (app, e)
    = let e2 := prompted LibraryApp.PROMPT_PASSWORD rest
                  (prompted LibraryApp.PROMPT_LOGIN (p :: rest) e) in
      let e3 := fst (Database.authenticate_user u p e2) in
      let app' := LibraryApp.mk (Some role) (Some u)
                    (LibraryApp.observers app) in
      if truthy (Some role)
      then ((app', printed (LibraryApp.MSG_WELCOME (Some u) (Some role)) e3),
            Ok tt)
      else ((app', printed LibraryApp.MSG_BAD_LOGIN e3), Raise SystemExit)).
  { unfold LibraryApp.login.
    rewrite (bind_ok _ _ _ _ _
               (lift_run _ app _ _ _
                  (input_run LibraryApp.PROMPT_LOGIN u (p :: rest) e Hin))).
    unfold LibraryApp.set_username at 1, modify at 1, bind at 1.
    cbn [fst snd]. unfold getpass.
    rewrite (bind_ok _ _ _ _ _
               (lift_run _ _ _ _ _
                  (input_run LibraryApp.PROMPT_PASSWORD p rest
                     (prompted LibraryApp.PROMPT_LOGIN (p :: rest) e)
                     eq_refl))).
    pose proof (authenticate_result_roles u p e
                  (prompted LibraryApp.PROMPT_PASSWORD rest
                     (prompted LibraryApp.PROMPT_LOGIN (p :: rest) e))
                  eq_refl) as Hsame.
    rewrite Hauth in Hsame.
    destruct (Database.authenticate_user u p
                (prompted LibraryApp.PROMPT_PASSWORD rest
                   (prompted LibraryApp.PROMPT_LOGIN (p :: rest) e)))
      as [e3 r3] eqn:Hcall.
    simpl in Hsame. subst r3.
    rewrite (bind_ok _ _ _ _ _ (lift_run _ _ _ _ _ Hcall)).
    unfold LibraryApp.set_role at 1, modify at 1, bind at 1.
    cbn [fst snd LibraryApp.role LibraryApp.username LibraryApp.observers].
    cbv zeta. destruct (truthy (Some role)).
    - now rewrite (lift_run _ _ _ _ _ (print_run _ _)).
    - now rewrite (bind_ok _ _ _ _ _ (lift_run _ _ _ _ _ (print_run _ _))). }
  pose proof (authenticate_answer_clean u p e _ Hauth) as Hclean.
  rewrite Hrun. cbv zeta. rewrite (authenticate_user_clean _ _ _ Hclean).
  cbn [fst].
  assert (Htruthy : truthy (Some role) = negb (role =? "")%string)
    by reflexivity.
  rewrite Htruthy.
  destruct (String.eqb_spec role "") as [-> | Hne]; cbn [negb fst snd].
  - split; [reflexivity|]. split; [reflexivity|]. split; [reflexivity|].
    split; [intros H; now destruct H|].
    intros _. split; [reflexivity|].
    unfold printed. simpl. now rewrite last_snoc.
  - split; [reflexivity|]. split; [reflexivity|]. split; [reflexivity|].
    split; [|intros H; contradiction].
    intros _. split; [reflexivity|]. split; [reflexivity|].
    unfold printed. simpl. now rewrite last_snoc.
Qed.

Lemma login_needs_nonempty_role_witness :
  snd (LibraryApp.login (LibraryApp.__init__,
                          Sample.world ["carol"; "books"; "0"])) = Ok tt
  /\ fst (fst (LibraryApp.login (LibraryApp.__init__,
                                 Sample.world ["carol"; "books"; "0"])))
     = LibraryApp.mk (Some "librarian") (Some "carol") [].
Proof.
  destruct (login_needs_nonempty_role LibraryApp.__init__
              (Sample.world ["carol"; "books"; "0"]) "carol" "books" ["0"]
              "librarian" eq_refl) as (_ & _ & _ & Hin & _).
  - vm_compute. reflexivity.
  - destruct Hin as (Hok & Happ & _); [discriminate|].
    split; [exact Hok | exact Happ].
Defined.

(** X6. When fewer than two lines are left to read, [login] ends with
    [EOFError]: the store is not asked (the cursor is as it was), the
    tables and the role are as they were, and no failure message is
    printed. *)
Theorem login_on_short_input (app : LibraryApp.t) (e : Env) :
  (length (stdin e) < 2)%nat ->
  let s := LibraryApp.login (app, e) in
  snd s = Raise EOFError
  /\ LibraryApp.role (fst (fst s)) = LibraryApp.role app
  /\ lib (snd (fst s)) = lib e /\ roles (snd (fst s)) = roles e
  /\ rowcount (snd (fst s)) = rowcount e
  /\ stdin (snd (fst s)) = []
  /\ Forall (fun o => exists prompt, o = Prompt prompt)
       (drop (length (stdout e)) (stdout (snd (fst s)))).
Proof.
  intros Hlen. cbv zeta. unfold LibraryApp.login.
  destruct (stdin e) as [|u [|p rest]] eqn:Hin; [| |simpl in Hlen; lia].
  - rewrite (bind_raise _ _ _ _ _
               (lift_run _ app _ _ _
                  (input_eof LibraryApp.PROMPT_LOGIN e Hin))).
    simpl. rewrite Hin. repeat split.
    rewrite drop_app_length. repeat constructor. eauto.
  - rewrite (bind_ok _ _ _ _ _
               (lift_run _ app _ _ _
                  (input_run LibraryApp.PROMPT_LOGIN u [] e Hin))).
    unfold LibraryApp.set_username at 1, modify at 1, bind at 1.
    cbn [fst snd]. unfold getpass.
    rewrite (bind_raise _ _ _ _ _
               (lift_run _ _ _ _ _
                  (input_eof LibraryApp.PROMPT_PASSWORD
                     (prompted LibraryApp.PROMPT_LOGIN [] e) eq_refl))).
    simpl. repeat split.
    rewrite <- app_assoc, drop_app_length. repeat constructor; eauto.
Qed.

Lemma login_on_short_input_witness :
  snd (LibraryApp.login (LibraryApp.__init__, Sample.world ["carol"]))
  = Raise EOFError.
Proof.
  apply (login_on_short_input LibraryApp.__init__ (Sample.world ["carol"])).
  simpl. lia.
Defined.

Section Menu.

Variable py_int : string -> Z + string.

Implicit Types (app : LibraryApp.t) (e : Env).

Lemma menu_turn_choice app e choice rest :
  stdin e = choice :: rest ->
  LibraryApp.menu_turn py_int (app, e)
  = (if String.eqb choice "1"
     then bind LibraryApp.show_books (fun _ => ret true)
     else if String.eqb choice "2"
             && opt_in (LibraryApp.role app) ["student"; "librarian"]
     then bind (LibraryApp.borrow_book py_int) (fun _ => ret true)
     else if String.eqb choice "3"
             && opt_eqb (LibraryApp.role app) "librarian"
     then bind (LibraryApp.return_book py_int) (fun _ => ret true)
     else if String.eqb choice "0" then ret false
     else bind (LibraryApp.lift (print LibraryApp.MSG_BAD_CHOICE))
            (fun _ => ret true))
      (app, prompted LibraryApp.PROMPT_CHOICE rest (menu_shown app e)).
Proof.
  intros Hin. rewrite menu_turn_head.
  now rewrite (bind_ok _ _ _ _ _
                 (lift_run _ app _ _ _
                    (input_run LibraryApp.PROMPT_CHOICE choice rest
                       (menu_shown app e) Hin))).
Qed.

Lemma borrow_book_refused app e :
  opt_in (LibraryApp.role app) ["student"; "librarian"] = false ->
  LibraryApp.borrow_book py_int (app, e)
  = ((app, printed LibraryApp.MSG_NO_BORROW_ACCESS e), Ok tt).
Proof.
  intros Hrole. unfold LibraryApp.borrow_book.
  rewrite (bind_ok _ _ _ _ _ (self_run app e)), Hrole.
  reflexivity.
Qed.

Lemma borrow_book_bad_id app e line rest msg :
  opt_in (LibraryApp.role app) ["student"; "librarian"] = true ->
  stdin e = line :: rest -> py_int line = inr msg ->
  LibraryApp.borrow_book py_int (app, e)
  = ((app, prompted LibraryApp.PROMPT_BORROW_ID rest (shown e)),
     Raise (ValueError msg)).
Proof.
  intros Hrole Hin Hint. unfold LibraryApp.borrow_book.
  rewrite (bind_ok _ _ _ _ _ (self_run app e)), Hrole. cbn [negb].
  rewrite (bind_ok _ _ _ _ _ (show_books_run app e)).
  rewrite (bind_ok _ _ _ _ _
             (lift_run _ app _ _ _
                (input_run LibraryApp.PROMPT_BORROW_ID line rest
                   (shown e) Hin))).
  now rewrite (bind_raise _ _ _ _ _ (int_raise py_int _ _ _ Hint)).
Qed.

Lemma return_book_bad_id app e line rest msg :
  opt_eqb (LibraryApp.role app) "librarian" = true ->
  stdin e = line :: rest -> py_int line = inr msg ->
  LibraryApp.return_book py_int (app, e)
  = ((app, prompted LibraryApp.PROMPT_RETURN_ID rest (shown e)),
     Raise (ValueError msg)).
Proof.
  intros Hrole Hin Hint. unfold LibraryApp.return_book.
  rewrite (bind_ok _ _ _ _ _ (self_run app e)), Hrole. cbn [negb].
  rewrite (bind_ok _ _ _ _ _ (show_books_run app e)).
  rewrite (bind_ok _ _ _ _ _
             (lift_run _ app _ _ _
                (input_run LibraryApp.PROMPT_RETURN_ID line rest
                   (shown e) Hin))).
  now rewrite (bind_raise _ _ _ _ _ (int_raise py_int _ _ _ Hint)).
Qed.

Lemma librarian_may_borrow (role : option string) :
  opt_in role ["student"; "librarian"] = false ->
  opt_eqb role "librarian" = false.
Proof.
  destruct role as [r|]; [|reflexivity]. simpl.
  destruct (r =? "librarian")%string; [|reflexivity].
  now rewrite orb_true_r.
Qed.

End Menu.

(** X7. A session whose role is neither "student" nor "librarian" (no role
    at all included) cannot borrow: the method only prints that there is no
    access, and "2" typed at the menu only prints that the choice is wrong;
    the tables, the cursor, the log and the clock are as they were. *)
Theorem borrow_refused_without_role
    (py_int : string -> Z + string) (app : LibraryApp.t) (e : Env) :
  opt_in (LibraryApp.role app) ["student"; "librarian"] = false ->
  LibraryApp.borrow_book py_int (app, e)
  = ((app, printed LibraryApp.MSG_NO_BORROW_ACCESS e), Ok tt)
  /\ (forall rest, stdin e = "2" :: rest ->
        let s := LibraryApp.menu_turn py_int (app, e) in
        s = ((app, printed LibraryApp.MSG_BAD_CHOICE
                     (prompted LibraryApp.PROMPT_CHOICE rest
                        (menu_shown app e))), Ok true)
        /\ lib (snd (fst s)) = lib e /\ roles (snd (fst s)) = roles e
        /\ rowcount (snd (fst s)) = rowcount e
        /\ log_file (snd (fst s)) = log_file e
        /\ ticks (snd (fst s)) = ticks e).
Proof.
  intros Hrole. split; [now apply borrow_book_refused|].
  intros rest Hin s. subst s.
  rewrite (menu_turn_choice py_int app e "2" rest Hin), Hrole.
  rewrite (librarian_may_borrow _ Hrole).
  change ("2" =? "1")%string with false.
  change ("2" =? "2")%string with true.
  change ("2" =? "3")%string with false.
  change ("2" =? "0")%string with false.
  cbn [andb].
  rewrite (bind_ok _ _ _ _ _ (lift_run _ app _ _ _ (print_run _ _))).
  repeat split.
Qed.

Lemma borrow_refused_without_role_witness :
  LibraryApp.borrow_book Sample.dec_int
    (LibraryApp.__init__, Sample.world ["5"; "2025-01-01"])
  = ((LibraryApp.__init__,
      printed LibraryApp.MSG_NO_BORROW_ACCESS
        (Sample.world ["5"; "2025-01-01"])), Ok tt).
Proof.
  apply (borrow_refused_without_role Sample.dec_int LibraryApp.__init__
           (Sample.world ["5"; "2025-01-01"])).
  reflexivity.
Defined.

(** X8. A book id that [int] rejects is not handled: the [ValueError] of
    [int] is raised before the [try] of the borrow and return actions, so
    their handlers do not catch it.  The action ends with that error right
    after its prompt, nothing is written to the tables or the log, and at
    the menu the loop ends with it. *)
Theorem malformed_id_is_not_caught (py_int : string -> Z + string)
    (app : LibraryApp.t) (e : Env) (line msg : string) (rest : list string) :
  py_int line = inr msg ->
  (opt_in (LibraryApp.role app) ["student"; "librarian"] = true ->
   (stdin e = line :: rest ->
    LibraryApp.borrow_book py_int (app, e)
    = ((app, prompted LibraryApp.PROMPT_BORROW_ID rest (shown e)),
       Raise (ValueError msg)))
   /\ (stdin e = "2" :: line :: rest ->
       forall fuel,
         let s := LibraryApp.menu_loop py_int (S fuel) (app, e) in
         snd s = Raise (ValueError msg)
         /\ lib (snd (fst s)) = lib e /\ log_file (snd (fst s)) = log_file e
         /\ stdin (snd (fst s)) = rest))
  /\ (opt_eqb (LibraryApp.role app) "librarian" = true ->
      stdin e = line :: rest ->
      LibraryApp.return_book py_int (app, e)
      = ((app, prompted LibraryApp.PROMPT_RETURN_ID rest (shown e)),
         Raise (ValueError msg))).
Proof.
  intros Hint. split.
  - intros Hrole. split.
    + intros Hin.
      exact (borrow_book_bad_id py_int app e line rest msg Hrole Hin Hint).
    + intros Hin fuel s. subst s.
      assert (Hturn : LibraryApp.menu_turn py_int (app, e)
                = ((app, prompted LibraryApp.PROMPT_BORROW_ID rest
                           (shown (prompted LibraryApp.PROMPT_CHOICE
                                     (line :: rest) (menu_shown app e)))),
                   Raise (ValueError msg))).
      { rewrite (menu_turn_choice py_int app e "2" (line :: rest) Hin), Hrole.
        change ("2" =? "1")%string with false.
        change ("2" =? "2")%string with true.
        cbn [andb].
        apply bind_raise.
        exact (borrow_book_bad_id py_int app
                 (prompted LibraryApp.PROMPT_CHOICE (line :: rest)
                    (menu_shown app e))
                 line rest msg Hrole eq_refl Hint). }
      change (LibraryApp.menu_loop py_int (S fuel))
        with (bind (LibraryApp.menu_turn py_int)
                (fun continue : bool =>
                   if continue then LibraryApp.menu_loop py_int fuel
                   else ret tt)).
      rewrite (bind_raise _ _ _ _ _ Hturn). repeat split.
  - intros Hrole Hin.
    exact (return_book_bad_id py_int app e line rest msg Hrole Hin Hint).
Qed.

Lemma malformed_id_is_not_caught_witness :
  LibraryApp.return_book Sample.dec_int
    (Sample.librarian [Logger], Sample.world ["six"])
  = ((Sample.librarian [Logger],
      prompted LibraryApp.PROMPT_RETURN_ID [] (shown (Sample.world ["six"]))),
     Raise (ValueError "invalid literal for int() with base 10: 'six'")).
Proof.
  destruct (malformed_id_is_not_caught Sample.dec_int
              (Sample.librarian [Logger]) (Sample.world ["six"]) "six"
              "invalid literal for int() with base 10: 'six'" [])
    as [_ Hret].
  - vm_compute. reflexivity.
  - apply Hret; reflexivity.
Defined.

(** X9. "0" at the menu ends the loop at once with a normal return: the
    menu and the prompt are printed, the lines typed after it are left
    unread, and nothing else changes. *)
Theorem exit_choice_ends_loop (py_int : string -> Z + string) (fuel : nat)
    (app : LibraryApp.t) (e : Env) (rest : list string) :
  stdin e = "0" :: rest ->
  LibraryApp.menu_loop py_int (S fuel) (app, e)
  = ((app, prompted LibraryApp.PROMPT_CHOICE rest (menu_shown app e)), Ok tt).
Proof.
  intros Hin. simpl.
  rewrite (bind_ok _ _ (app, e)
             (app, prompted LibraryApp.PROMPT_CHOICE rest (menu_shown app e))
             false); [reflexivity|].
  rewrite (menu_turn_choice py_int app e "0" rest Hin).
  change ("0" =? "1")%string with false.
  change ("0" =? "2")%string with false.
  change ("0" =? "3")%string with false.
  change ("0" =? "0")%string with true.
  reflexivity.
Qed.

Lemma exit_choice_ends_loop_witness :
  stdin (snd (fst (LibraryApp.menu_loop Sample.dec_int 1
                     (Sample.student [Logger], Sample.world ["0"; "2"; "5"]))))
  = ["2"; "5"].
Proof.
  rewrite (exit_choice_ends_loop Sample.dec_int 0 (Sample.student [Logger])
             (Sample.world ["0"; "2"; "5"]) ["2"; "5"] eq_refl).
  reflexivity.
Defined.

(** X10. A line at the menu that is none of "1", "2", "3" and "0" (the
    empty line, a padded digit, a word) only prints that the choice is
    wrong, whatever the role, and the loop goes on; the tables, the cursor,
    the log and the clock are as they were. *)
Theorem unknown_choice_repeats_menu (py_int : string -> Z + string)
    (app : LibraryApp.t) (e : Env) (choice : string) (rest : list string) :
  stdin e = choice :: rest ->
  choice <> "1" -> choice <> "2" -> choice <> "3" -> choice <> "0" ->
  LibraryApp.menu_turn py_int (app, e)
  = ((app, printed LibraryApp.MSG_BAD_CHOICE
             (prompted LibraryApp.PROMPT_CHOICE rest (menu_shown app e))),
     Ok true).
Proof.
  intros Hin H1 H2 H3 H0.
  rewrite (menu_turn_choice py_int app e choice rest Hin).
  rewrite (proj2 (String.eqb_neq _ _) H1), (proj2 (String.eqb_neq _ _) H2),
    (proj2 (String.eqb_neq _ _) H3), (proj2 (String.eqb_neq _ _) H0).
  cbn [andb].
  now rewrite (bind_ok _ _ _ _ _ (lift_run _ app _ _ _ (print_run _ _))).
Qed.

Lemma unknown_choice_repeats_menu_witness :
  LibraryApp.menu_turn Sample.dec_int
    (Sample.librarian [Logger], Sample.world [" 3"; "6"])
  = ((Sample.librarian [Logger],
      printed LibraryApp.MSG_BAD_CHOICE
        (prompted LibraryApp.PROMPT_CHOICE ["6"]
           (menu_shown (Sample.librarian [Logger])
              (Sample.world [" 3"; "6"])))), Ok true).
Proof.
  apply (unknown_choice_repeats_menu Sample.dec_int
           (Sample.librarian [Logger]) (Sample.world [" 3"; "6"]) " 3" ["6"]);
    [reflexivity | discriminate | discriminate | discriminate | discriminate].
Defined.

(* ===================================================================== *)
(** ** Circulation, listing and the log                                   *)
(* ===================================================================== *)

Section Circulation.

Variable py_int : string -> Z + string.

Implicit Types (app : LibraryApp.t) (e : Env) (b : Lib.row).

Lemma count_rows_available book_id (rows : list Lib.row) :
  (exists b, b ∈ rows /\ available book_id b) ->
  (Database.count_rows (Database.borrow_cond book_id) rows =? 0) = false.
Proof.
  intros (b & Hb & Hav). apply Z.eqb_neq. intros Hz.
  apply borrow_cond_true in Hav.
  rewrite (proj1 (count_rows_zero _ _) Hz b Hb) in Hav. discriminate.
Qed.

Lemma Logger_update_ok message e :
  log_fault e (str_datetime (clock e (ticks e)) ++ ": " ++ message) = None ->
  update Logger message e
  = (with_log_file
       (log_file e
        ++ [str_datetime (clock e (ticks e)) ++ ": " ++ message])
       (with_ticks (S (ticks e)) e), Ok tt).
Proof.
  intros H. unfold Logger, update, bind, now, get, modify, raise.
  cbn [fst snd log_fault with_ticks clock ticks log_file].
  now rewrite H.
Qed.

Lemma notify_logger_ok message e :
  log_fault e (str_datetime (clock e (ticks e)) ++ ": " ++ message) = None ->
  LibraryApp.notify_each [Logger] message e
  = (with_log_file
       (log_file e
        ++ [str_datetime (clock e (ticks e)) ++ ": " ++ message])
       (with_ticks (S (ticks e)) e), Ok tt).
Proof.
  intros H. cbn [LibraryApp.notify_each]. unfold bind.
  now rewrite (Logger_update_ok message e H).
Qed.

Lemma after_notify_lib app (n : Env * result unit) :
  lib (snd (fst (after_notify app n))) = lib (fst n).
Proof. destruct n as [e' [[]|[]|]]; reflexivity. Qed.

End Circulation.

(** X11. A return hands the book on: after [return_book] for an id, a
    borrow of that id with a name and a return date that hold no NUL
    character succeeds exactly when the table has a row with the id,
    whoever held it before, and every row with the id then carries the new
    borrower, the clock's date and the new return date.  With a NUL
    character in either text the borrow is refused before it is sent and
    the rows stay as the return left them. *)
Theorem return_makes_available (book_id : Z) (username return_date : string)
    (e : Env) :
  let e1 := fst (Database.return_book book_id e) in
  let g := Database.borrow_book book_id (Some username) return_date e1 in
  (has_nul username = false -> has_nul return_date = false ->
     (snd g = Ok tt <-> exists b, b ∈ lib e /\ Lib.id b = book_id)
     /\ (snd g = Raise (ValueError Database.MSG_UNAVAILABLE)
         <-> forall b, b ∈ lib e -> Lib.id b <> book_id)
     /\ (forall (i : nat) (b : Lib.row),
           lib e !! i = Some b -> Lib.id b = book_id ->
           lib (fst g) !! i
           = Some (borrowed_row b username (dt_date (clock e (ticks e)))
                     return_date)))
  /\ (has_nul username = true \/ has_nul return_date = true ->
      snd g = Raise (ValueError Database.MSG_NUL)
      /\ lib (fst g) = lib e1
      /\ forall (i : nat) (b : Lib.row),
           lib e !! i = Some b -> Lib.id b = book_id ->
           lib (fst g) !! i = Some (returned_row b)).
Proof.
  intros e1 g.
  assert (Hmem : forall b', b' ∈ lib e1 <->
            exists b, b ∈ lib e
                      /\ b' = (if Database.return_cond book_id b
                               then Database.return_set b else b)).
  { intros b'. subst e1. rewrite return_book_unfold. simpl.
    unfold Database.update_rows.
    rewrite list_elem_of_In, in_map_iff. split.
    - intros (b & <- & Hb). exists b. split; [now apply list_elem_of_In|].
      reflexivity.
    - intros (b & Hb & ->). exists b. split; [reflexivity|].
      now apply list_elem_of_In. }
  assert (Hav : (exists b', b' ∈ lib e1 /\ available book_id b')
                <-> exists b, b ∈ lib e /\ Lib.id b = book_id).
  { split.
    - intros (b' & Hb' & [Hid _]). apply Hmem in Hb'.
      destruct Hb' as (b & Hb & ->). exists b. split; [assumption|].
      destruct (Database.return_cond book_id b) eqn:Hc.
      + now apply return_cond_true.
      + exact Hid.
    - intros (b & Hb & Hid). exists (Database.return_set b). split.
      + apply Hmem. exists b. split; [assumption|].
        now rewrite (proj2 (return_cond_true book_id b) Hid).
      + split; [exact Hid | reflexivity]. }
  split.
  - intros Hu Hd. pose proof (clean_strings username return_date Hu Hd)
      as Hclean.
    split; [|split].
    + subst g. rewrite (borrow_result_ok _ _ _ _ Hclean). exact Hav.
    + subst g. rewrite (borrow_result_raise _ _ _ _ Hclean). split.
      * intros H b Hb Hid. apply (H (Database.return_set b)).
        -- apply Hmem. exists b. split; [assumption|].
           now rewrite (proj2 (return_cond_true book_id b) Hid).
        -- split; [exact Hid | reflexivity].
      * intros H b' Hb' [Hid _]. apply Hmem in Hb'.
        destruct Hb' as (b & Hb & ->). apply (H b Hb).
        destruct (Database.return_cond book_id b) eqn:Hc.
        -- now apply return_cond_true.
        -- exact Hid.
    + intros i b Hi Hid. subst g e1.
      rewrite (borrow_book_clean _ _ _ _ Hclean), return_book_unfold. simpl.
      rewrite !update_rows_lookup, Hi. simpl.
      rewrite (proj2 (return_cond_true book_id b) Hid).
      unfold Database.borrow_cond. simpl.
      now rewrite (proj2 (Z.eqb_eq _ _) Hid).
  - intros Hnul.
    assert (Hdirty : param_has_nul (Some username) || has_nul return_date
                     = true).
    { simpl. destruct Hnul as [-> | ->]; [reflexivity|].
      now rewrite orb_true_r. }
    subst g. rewrite (borrow_book_nul _ _ _ _ Hdirty). cbn [fst snd].
    split; [reflexivity|]. split; [reflexivity|].
    intros i b Hi Hid. subst e1. rewrite return_book_unfold. simpl.
    rewrite update_rows_lookup, Hi. simpl.
    now rewrite (proj2 (return_cond_true book_id b) Hid).
Qed.

Lemma return_makes_available_witness :
  lib (fst (Database.borrow_book 6 (Some "alice") "2025-01-01"
              (fst (Database.return_book 6 (Sample.world []))))) !! 1%nat
  = Some (Lib.mkRow 6 "Emma" "Austen" "1815-12-23"
            (Some "alice") (Some "2024-12-01") (Some "2025-01-01")).
Proof.
  destruct (return_makes_available 6 "alice" "2025-01-01" (Sample.world []))
    as (Hclean & _).
  destruct (Hclean eq_refl eq_refl) as (_ & _ & Hrow).
  apply (Hrow 1%nat Sample.book6); reflexivity.
Defined.

(** X12. The listing and the store disagree on the empty name: a row is
    listed as available exactly when its [borrowed_by] is null or the empty
    text, while a borrow asks for null.  So a book held under the empty
    name is listed as available and, ids being a key, cannot be
    borrowed: the borrow is refused with a [ValueError], the "book
    unavailable" one when its texts hold no NUL character. *)
Theorem listing_reads_empty_borrower_as_free :
  (forall b : Lib.row,
     LibraryApp.book_status b = "Доступна"
     <-> Lib.borrowed_by b = None \/ Lib.borrowed_by b = Some "")
  /\ (forall (e : Env) (b : Lib.row) (username return_date : string),
        NoDup (map Lib.id (lib e)) -> b ∈ lib e ->
        Lib.borrowed_by b = Some "" ->
        let g := Database.borrow_book (Lib.id b) (Some username)
                   return_date e in
        LibraryApp.book_status b = "Доступна"
        /\ snd g
           = Raise (ValueError (borrow_refusal (Some username) return_date))
        /\ (has_nul username = false -> has_nul return_date = false ->
            snd g = Raise (ValueError Database.MSG_UNAVAILABLE))
        /\ lib (fst g) = lib e).
Proof.
  assert (Hstatus : forall b : Lib.row,
     LibraryApp.book_status b = "Доступна"
     <-> Lib.borrowed_by b = None \/ Lib.borrowed_by b = Some "").
  { intros b. unfold LibraryApp.book_status.
    destruct (Lib.borrowed_by b) as [who|]; simpl.
    - destruct (String.eqb_spec who "") as [-> | Hne]; simpl.
      + split; [now right | reflexivity].
      + split; [discriminate|]. intros [H | [= H]]; [discriminate|].
        contradiction.
    - split; [now left | reflexivity]. }
  split; [exact Hstatus|].
  intros e b username return_date Hnd Hb Hout g. subst g.
  assert (Hno : forall b', b' ∈ lib e -> ~ available (Lib.id b) b').
  { intros b' Hb' [Hid Hn].
    rewrite (unique_id (lib e) b' b Hnd Hb' Hb Hid) in Hn. congruence. }
  split; [apply Hstatus; now right|].
  split; [now apply borrow_refused|].
  split; [|now apply borrow_raise_keeps_lib].
  intros Hu Hd.
  now apply (borrow_result_raise _ _ _ _ (clean_strings _ _ Hu Hd)).
Qed.

Lemma listing_reads_empty_borrower_as_free_witness :
  LibraryApp.book_status
    (Lib.mkRow 7 "Ulysses" "Joyce" "1922-02-02"
               (Some "") (Some "2024-11-30") (Some "2024-12-31"))
  = "Доступна"
  /\ snd (Database.borrow_book 7 (Some "alice") "2025-01-01"
            (with_lib [Sample.book5;
                       Lib.mkRow 7 "Ulysses" "Joyce" "1922-02-02"
                         (Some "") (Some "2024-11-30") (Some "2024-12-31")]
               (Sample.world [])))
     = Raise (ValueError Database.MSG_UNAVAILABLE).
Proof.
  destruct listing_reads_empty_borrower_as_free as [_ H].
  destruct (H (with_lib [Sample.book5;
                      Lib.mkRow 7 "Ulysses" "Joyce" "1922-02-02"
                        (Some "") (Some "2024-11-30") (Some "2024-12-31")]
              (Sample.world []))
           (Lib.mkRow 7 "Ulysses" "Joyce" "1922-02-02"
              (Some "") (Some "2024-11-30") (Some "2024-12-31"))
           "alice" "2025-01-01") as (Hfree & _ & Hraise & _).
  - simpl. repeat constructor; rewrite ?elem_of_cons, ?elem_of_nil;
      intuition discriminate.
  - right. left.
  - reflexivity.
  - split; [exact Hfree | exact (Hraise eq_refl eq_refl)].
Defined.

(** X13. With the one [Logger] of the program registered and a log that
    takes the line, every borrow that succeeds and every return appends
    exactly one line to the log, [<timestamp>: <message>], the message
    naming the book id (and, for a borrow, the session's user); the action
    returns normally.  The timestamp is the clock reading that follows the
    one the borrow took for its date.  A borrow succeeds when a row is
    available under the id and neither the session's name nor the typed
    return date holds a NUL character; when one does, the borrow is
    refused before it is sent, its error is printed and nothing is
    logged. *)
Theorem logger_records_each_action (py_int : string -> Z + string)
    (app : LibraryApp.t) (e : Env) :
  LibraryApp.observers app = [Logger] ->
  (forall (line return_date : string) (rest : list string) (book_id : Z),
     opt_in (LibraryApp.role app) ["student"; "librarian"] = true ->
     stdin e = line :: return_date :: rest ->
     py_int line = inl book_id ->
     (exists b, b ∈ lib e /\ available book_id b) ->
     param_has_nul (LibraryApp.username app) = false ->
     has_nul return_date = false ->
     let entry :=
       str_datetime (clock e (S (ticks e))) ++ ": "
       ++ LibraryApp.NOTE_BORROWED book_id (LibraryApp.username app) in
     log_fault e entry = None ->
     let s := LibraryApp.borrow_book py_int (app, e) in
     snd s = Ok tt
     /\ log_file (snd (fst s)) = (log_file e ++ [entry])%list
     /\ last (stdout (snd (fst s))) = Some (Print LibraryApp.MSG_BORROWED))
  /\ (forall (line return_date : string) (rest : list string) (book_id : Z),
        opt_in (LibraryApp.role app) ["student"; "librarian"] = true ->
        stdin e = line :: return_date :: rest ->
        py_int line = inl book_id ->
        param_has_nul (LibraryApp.username app) = true
        \/ has_nul return_date = true ->
        let s := LibraryApp.borrow_book py_int (app, e) in
        snd s = Ok tt
        /\ log_file (snd (fst s)) = log_file e
        /\ lib (snd (fst s)) = lib e
        /\ last (stdout (snd (fst s))) = Some (Print Database.MSG_NUL))
  /\ (forall (line : string) (rest : list string) (book_id : Z),
        opt_eqb (LibraryApp.role app) "librarian" = true ->
        stdin e = line :: rest ->
        py_int line = inl book_id ->
        let entry :=
          str_datetime (clock e (ticks e)) ++ ": "
          ++ LibraryApp.NOTE_RETURNED book_id in
        log_fault e entry = None ->
        let s := LibraryApp.return_book py_int (app, e) in
        snd s = Ok tt
        /\ log_file (snd (fst s)) = (log_file e ++ [entry])%list
        /\ last (stdout (snd (fst s)))
           = Some (Print LibraryApp.MSG_RETURNED)).
Proof.
  intros Hobs. split; [|split].
  - intros line return_date rest book_id Hrole Hin Hint Hav Hu Hd entry
      Hfault s.
    subst s.
    assert (Hclean : param_has_nul (LibraryApp.username app)
                     || has_nul return_date = false)
      by now rewrite Hu, Hd.
    rewrite (borrow_book_run py_int app e line return_date rest book_id
               Hrole Hin Hint Hclean).
    cbv zeta. rewrite (count_rows_available book_id (lib e) Hav), Hobs.
    rewrite notify_logger_ok by exact Hfault.
    unfold after_notify, printed, with_log_file, with_ticks, with_stdout.
    cbn [fst snd log_file stdout].
    split; [reflexivity|]. split; [reflexivity|].
    now rewrite last_snoc.
  - intros line return_date rest book_id Hrole Hin Hint Hnul s. subst s.
    assert (Hdirty : param_has_nul (LibraryApp.username app)
                     || has_nul return_date = true).
    { destruct Hnul as [-> | ->]; [reflexivity | apply orb_true_r]. }
    rewrite (borrow_book_run_nul py_int app e line return_date rest book_id
               Hrole Hin Hint Hdirty).
    unfold printed, with_ticks, with_stdout.
    cbn [fst snd log_file stdout lib].
    split; [reflexivity|]. split; [reflexivity|]. split; [reflexivity|].
    now rewrite last_snoc.
  - intros line rest book_id Hrole Hin Hint entry Hfault s. subst s.
    rewrite (return_book_run py_int app e line rest book_id Hrole Hin Hint).
    rewrite Hobs.
    rewrite notify_logger_ok by exact Hfault.
    unfold after_notify, printed, with_log_file, with_ticks, with_stdout.
    cbn [fst snd log_file stdout].
    split; [reflexivity|]. split; [reflexivity|].
    now rewrite last_snoc.
Qed.

Lemma logger_records_each_action_witness :
  log_file (snd (fst (LibraryApp.borrow_book Sample.dec_int
                        (Sample.student [Logger],
                         Sample.world ["5"; "2025-01-01"]))))
  = ["2024-12-01 10:00:01: Книга ID 5 выдана пользователю alice."]
  /\ log_file (snd (fst (LibraryApp.borrow_book Sample.dec_int
                           (Sample.student [Logger],
                            Sample.world ["5"; Sample.nul_date]))))
     = []
  /\ log_file (snd (fst (LibraryApp.return_book Sample.dec_int
                           (Sample.librarian [Logger], Sample.world ["6"]))))
     = ["2024-12-01 10:00:00: Книга ID 6 возвращена в библиотеку."].
Proof.
  split; [|split].
  - destruct (logger_records_each_action Sample.dec_int
                (Sample.student [Logger]) (Sample.world ["5"; "2025-01-01"])
                eq_refl) as (Hbor & _ & _).
    destruct (Hbor "5" "2025-01-01" [] 5 eq_refl eq_refl eq_refl)
      as (_ & Hlog & _).
    + exists Sample.book5. split; [left | split; reflexivity].
    + reflexivity.
    + reflexivity.
    + reflexivity.
    + rewrite Hlog. vm_compute. reflexivity.
  - destruct (logger_records_each_action Sample.dec_int
                (Sample.student [Logger])
                (Sample.world ["5"; Sample.nul_date]) eq_refl)
      as (_ & Hnul & _).
    destruct (Hnul "5" Sample.nul_date [] 5 eq_refl eq_refl eq_refl)
      as (_ & Hlog & _).
    + right. reflexivity.
    + rewrite Hlog. reflexivity.
  - destruct (logger_records_each_action Sample.dec_int
                (Sample.librarian [Logger]) (Sample.world ["6"]) eq_refl)
      as (_ & _ & Hret).
    destruct (Hret "6" [] 6 eq_refl eq_refl eq_refl eq_refl)
      as (_ & Hlog & _).
    rewrite Hlog. vm_compute. reflexivity.
Defined.

(** X14. A borrow is not undone by what follows it: once the gateway has
    written the row (a row available under the typed id, a session name
    and a return date that hold no NUL character), the row carries the
    session's user, the clock's date and the typed return date at the end
    of the action, whether the subscribers complete, raise or have their
    [ValueError] printed by the handler, as long as they leave the tables
    alone.  When the name or the date holds a NUL character nothing is
    written and the row is at the end the row it was. *)
Theorem borrow_outlives_notification (py_int : string -> Z + string)
    (app : LibraryApp.t) (e : Env) (line return_date u : string)
    (rest : list string) (book_id : Z) (i : nat) (b : Lib.row) :
  opt_in (LibraryApp.role app) ["student"; "librarian"] = true ->
  stdin e = line :: return_date :: rest ->
  py_int line = inl book_id ->
  LibraryApp.username app = Some u ->
  Forall quiet (LibraryApp.observers app) ->
  lib e !! i = Some b -> available book_id b ->
  let e' := snd (fst (LibraryApp.borrow_book py_int (app, e))) in
  (has_nul u = false -> has_nul return_date = false ->
     lib e' !! i
     = Some (borrowed_row b u (dt_date (clock e (ticks e))) return_date))
  /\ (has_nul u = true \/ has_nul return_date = true ->
      lib e' !! i = Some b).
Proof.
  intros Hrole Hin Hint Hname Hq Hi Hav e'. subst e'. split.
  - intros Hu Hd.
    assert (Hclean : param_has_nul (LibraryApp.username app)
                     || has_nul return_date = false)
      by (rewrite Hname; now apply clean_strings).
    rewrite (borrow_book_run py_int app e line return_date rest book_id
               Hrole Hin Hint Hclean).
    cbv zeta.
    rewrite (count_rows_available book_id (lib e)).
    2:{ exists b. split; [|assumption].
        apply list_elem_of_lookup. now exists i. }
    rewrite after_notify_lib.
    match goal with
    | |- context [LibraryApp.notify_each ?o ?m ?x] =>
        destruct (notify_each_quiet o m x Hq) as [-> _]
    end.
    unfold printed, borrow_env. cbn [lib with_stdout with_rowcount with_lib].
    rewrite update_rows_lookup.
    change (lib (asked_borrow return_date rest e)) with (lib e).
    rewrite Hi. simpl.
    rewrite (proj2 (borrow_cond_true book_id b) Hav), Hname.
    reflexivity.
  - intros Hnul.
    assert (Hdirty : param_has_nul (LibraryApp.username app)
                     || has_nul return_date = true).
    { rewrite Hname. simpl.
      destruct Hnul as [-> | ->]; [reflexivity | apply orb_true_r]. }
    rewrite (borrow_book_run_nul py_int app e line return_date rest book_id
               Hrole Hin Hint Hdirty).
    exact Hi.
Qed.

Lemma borrow_outlives_notification_witness :
  lib (snd (fst (LibraryApp.borrow_book Sample.dec_int
                   (Sample.student [BaseObserver],
                    Sample.world ["5"; "2025-01-01"])))) !! 0%nat
  = Some (Lib.mkRow 5 "Dune" "Herbert" "1965-08-01"
            (Some "alice") (Some "2024-12-01") (Some "2025-01-01")).
Proof.
  assert (Hq : Forall quiet
                 (LibraryApp.observers (Sample.student [BaseObserver]))).
  { simpl. constructor; [exact BaseObserver_quiet | constructor]. }
  assert (Hav : available 5 Sample.book5) by (split; reflexivity).
  destruct (borrow_outlives_notification Sample.dec_int
              (Sample.student [BaseObserver])
              (Sample.world ["5"; "2025-01-01"])
              "5" "2025-01-01" "alice" [] 5 0%nat Sample.book5
              eq_refl eq_refl eq_refl eq_refl Hq eq_refl Hav)
    as [Hrow _].
  exact (Hrow eq_refl eq_refl).
Defined.

(** X15. Listing the books only reads: [show_books] returns normally,
    prints the heading and then one line per row of the table in store
    order, and leaves the application object, both tables, the input, the
    log and the clock as they were; only the cursor's row count becomes
    the number of rows. *)
Theorem show_books_only_reads (app : LibraryApp.t) (e : Env) :
  let s := LibraryApp.show_books (app, e) in
  snd s = Ok tt /\ fst (fst s) = app
  /\ lib (snd (fst s)) = lib e /\ roles (snd (fst s)) = roles e
  /\ stdin (snd (fst s)) = stdin e /\ log_file (snd (fst s)) = log_file e
  /\ ticks (snd (fst s)) = ticks e
  /\ rowcount (snd (fst s)) = Z.of_nat (length (lib e))
  /\ stdout (snd (fst s))
     = (stdout e ++ Print LibraryApp.MSG_BOOK_LIST
          :: map (fun b => Print (LibraryApp.book_line b)) (lib e))%list
  /\ length (stdout (snd (fst s)))
     = (length (stdout e) + 1 + length (lib e))%nat.
Proof.
  cbv zeta. rewrite show_books_run. unfold shown. simpl.
  repeat split.
  - now rewrite map_map.
  - rewrite length_app. simpl. rewrite !length_map. lia.
Qed.

(** X16. A login whose name or password holds a NUL character is not
    answered by the store: the statement is refused before it is sent, its
    [ValueError] leaves [login] and [run] uncaught, so the program ends
    with it after the two prompts; the name typed is stored, the role is
    as it was, no failure message is printed, no further line is read and
    the tables and the cursor are as they were. *)
Theorem login_with_nul_is_not_answered (py_int : string -> Z + string)
    (fuel : nat) (app : LibraryApp.t) (e : Env) (u p : string)
    (rest : list string) :
  stdin e = u :: p :: rest ->
  has_nul u = true \/ has_nul p = true ->
  let e' := prompted LibraryApp.PROMPT_PASSWORD rest
              (prompted LibraryApp.PROMPT_LOGIN (p :: rest) e) in
  LibraryApp.login (app, e)
  = ((LibraryApp.mk (LibraryApp.role app) (Some u)
        (LibraryApp.observers app), e'),
     Raise (ValueError Database.MSG_NUL))
  /\ LibraryApp.run py_int fuel (app, e) = LibraryApp.login (app, e)
  /\ stdout e'
     = (stdout e ++ [Prompt LibraryApp.PROMPT_LOGIN;
                     Prompt LibraryApp.PROMPT_PASSWORD])%list
  /\ stdin e' = rest
  /\ lib e' = lib e /\ roles e' = roles e /\ rowcount e' = rowcount e.
Proof.
  intros Hin Hnul e'. subst e'.
  assert (Hdirty : has_nul u || has_nul p = true).
  { destruct Hnul as [-> | ->]; [reflexivity | apply orb_true_r]. }
  assert (Hlogin : LibraryApp.login (app, e)
            = ((LibraryApp.mk (LibraryApp.role app) (Some u)
                  (LibraryApp.observers app),
                prompted LibraryApp.PROMPT_PASSWORD rest
                  (prompted LibraryApp.PROMPT_LOGIN (p :: rest) e)),
               Raise (ValueError Database.MSG_NUL))).
  { rewrite (login_call app e u p rest Hin), authenticate_user_unfold.
    now rewrite Hdirty. }
  split; [exact Hlogin|]. split.
  - unfold LibraryApp.run.
    rewrite (bind_raise _ _ _ _ _ Hlogin). now rewrite Hlogin.
  - split.
    + unfold prompted. simpl. now rewrite <- app_assoc.
    + now repeat split.
Qed.

Lemma login_with_nul_is_not_answered_witness :
  snd (LibraryApp.run Sample.dec_int 5
         (LibraryApp.__init__,
          Sample.world [Sample.nul_name; "wonder"; "1"; "0"]))
  = Raise (ValueError Database.MSG_NUL).
Proof.
  destruct (login_with_nul_is_not_answered Sample.dec_int 5
              LibraryApp.__init__
              (Sample.world [Sample.nul_name; "wonder"; "1"; "0"])
              Sample.nul_name "wonder" ["1"; "0"] eq_refl)
    as (Hlogin & Hrun & _).
  - left. reflexivity.
  - rewrite Hrun, Hlogin. reflexivity.
Defined.
